(** * smoldapp: the action layer of [src/utils/actions.ts]

    A shallow embedding of the exported helpers of [utils/actions.ts]
    (approvals, transfers, listings and dispersals over fixed contract
    interfaces) and the properties the specification states about them.

    The helpers are asynchronous functions awaited one after the other: each
    is embedded as a computation in a state-and-exception monad.  The state
    holds the outside world (chain, wallet, RPC client), the request object
    [props] the caller passed by reference, and the log of the calls that
    left the helper. *)

From Stdlib Require Import ZArith String List Bool Lia.
From stdpp Require Import base list.
Import ListNotations.

Open Scope string_scope.
Open Scope list_scope.
Open Scope Z_scope.

(** ** Data model *)

(** [TAddress] is the template string type [`0x${string}`]. *)
Definition TAddress := string.
(** A wallet connector, a transaction hash, a public client and a function
    supplied by the caller are opaque to this module: they are only passed
    on.  Each is represented by an identifier. *)
Definition Connector := string.
Definition Hash := string.
Definition PublicClient := Z.
Definition Callback := string.

(** The ABIs the module imports or declares. *)
Inductive Abi :=
| erc20ABI
| erc721ABI
| ERC1155_ABI
| NFT_MIGRATOOOR_ABI
| DISPERSE_ABI
| ALTERNATE_ERC20_APPROVE_ABI.

(** Values that appear in the [args] of a contract call.  An address may be
    [undefined] at the type level ([TAddress | undefined]). *)
Inductive TArg :=
| ArgAddress (a : option TAddress)
| ArgBigint (n : Z)
| ArgBool (b : bool)
| ArgBytes (s : string)
| ArgAddresses (l : list (option TAddress))
| ArgBigints (l : list Z).

(** The call descriptor handed to [readContract] and [handleTx]. *)
Record TContractCall := mkCall {
  call_address : option TAddress;
  call_abi : Abi;
  functionName : string;
  args : list TArg;
  value : option Z
}.

(** What [toWagmiProvider] resolves a connector to; the module reads
    [address] and [chainId] and spreads the rest into its calls. *)
Record TWagmiProvider := mkProvider {
  chainId : Z;
  wp_address : option TAddress
}.

(** The object given to the status callback: [defaultTxStatus] with one flag
    overwritten. *)
Record TTxStatus := mkStatus {
  st_none : bool;
  st_pending : bool;
  st_success : bool;
  st_error : bool
}.

Inductive ReceiptStatus := StatusSuccess | StatusReverted.

Record TReceipt := mkReceipt {
  status : ReceiptStatus;
  transactionHash : Hash
}.

(** Exceptions.  [AssertionError] is what [assert] raises; [InvalidAddress]
    is what [assertAddress] raises, with the label it was given; [BaseError]
    is an error object raised by the wallet or RPC library. *)
Inductive exn :=
| AssertionError (msg : string)
| InvalidAddress (label : option string)
| BaseError (name : string).

(** [TTxResponse]: a success flag with a receipt or an error. *)
Record TTxResponse := mkResponse {
  isSuccessful : bool;
  receipt : option TReceipt;
  error : option exn
}.

(** The value of the [onTrySomethingElse] field: a function of the caller,
    or the closure [approveERC20] builds (it captures [props]). *)
Inductive Fallback :=
| CallerFallback (f : Callback)
| AlternateApprove.

(** [TWriteTransaction], as far as this module reads or writes it. *)
Record TWriteTransaction := mkWrite {
  connector : option Connector;
  contractAddress : option TAddress;
  statusHandler : option Callback;
  onTrySomethingElse : option Fallback
}.

(** The request prepared by [prepareSendTransaction], with the fields the
    module reads or writes. *)
Record TSendConfig := mkConfig {
  cfg_to : option TAddress;
  cfg_value : Z;
  gas : option Z;
  maxPriorityFeePerGas : option Z
}.

(** Kinds of results [readContract] is used at. *)
Inductive RetTy := RetBigint | RetBigints.

Definition ret_type (ty : RetTy) : Type :=
  match ty with
  | RetBigint => Z
  | RetBigints => list Z
  end.

(** The asynchronous calls that leave the module, indexed by the type of what
    they resolve to: [toWagmiProvider] and [handleTx], the two collaborators
    of [utils/toWagmiProvider], and the functions of [@wagmi/core] and of the
    public client. *)
Inductive ext : Type -> Type :=
| ToWagmiProvider (c : option Connector) : ext TWagmiProvider
| ReadContract (ty : RetTy) (prov : TWagmiProvider) (c : TContractCall) : ext (ret_type ty)
| HandleTx (props : TWriteTransaction) (c : TContractCall) : ext TTxResponse
| PrepareSendTransaction (prov : TWagmiProvider) (to : option TAddress) (v : Z) : ext TSendConfig
| GetPublicClient (chain : Z) : ext PublicClient
| GetGasPrice (client : PublicClient) : ext Z
| SendTransaction (cfg : TSendConfig) : ext Hash
| WaitForTransaction (chain : Z) (h : Hash) : ext TReceipt.

(** What the log records. *)
Inductive event :=
| EvCall {X : Type} (c : ext X)
| EvStatus (cb : Callback) (st : TTxStatus)
| EvConsoleError (e : exn)
| EvSetTimeout (ms : Z) (cb : option Callback) (st : TTxStatus).

(** The name of the contract function an event invokes, if it is a contract
    call. *)
Definition contract_function (ev : event) : option string :=
  match ev with
  | EvCall c =>
      match c with
      | ReadContract _ _ d => Some (functionName d)
      | HandleTx _ d => Some (functionName d)
      | _ => None
      end
  | _ => None
  end.

(** ** The environment

    Everything the module imports and does not define.  [oracle] answers an
    external call in the current world: it returns a value or raises, and
    may change the world.  [validAddress] is the test [assertAddress]
    applies.  [notify] answers a call of a status callback, a function of
    the caller: like any call it returns or raises, and may change the
    world.  [defaultTxStatus] and [MAX_UINT_256] are constants of
    [@yearn-finance/web-lib]. *)
Class Environment := {
  World : Type;
  validAddress : option TAddress -> bool;
  oracle : forall X, ext X -> World -> (exn + X) * World;
  notify : Callback -> TTxStatus -> World -> (exn + unit) * World;
  defaultTxStatus : TTxStatus;
  MAX_UINT_256 : Z
}.

(** ** The monad *)

Section Monad.
Context {E : Environment}.

(** [P] is the type of the request object. *)
Record State (P : Type) := mkState {
  world : World;
  props : P;
  log : list event
}.
Arguments mkState {P}.
Arguments world {P}.
Arguments props {P}.
Arguments log {P}.

Definition M (P A : Type) : Type := State P -> (exn + A) * State P.

Definition ret {P A} (a : A) : M P A := fun s => (inr a, s).

Definition throw {P A} (e : exn) : M P A := fun s => (inl e, s).

Definition bind {P A B} (m : M P A) (k : A -> M P B) : M P B :=
  fun s =>
    match m s with
    | (inr a, s') => k a s'
    | (inl e, s') => (inl e, s')
    end.

(** [try { m } catch (error) { h error }] *)
Definition try_catch {P A} (m : M P A) (h : exn -> M P A) : M P A :=
  fun s =>
    match m s with
    | (inr a, s') => (inr a, s')
    | (inl e, s') => h e s'
    end.

(** [try { m } finally { f }]: [f] runs on both exits; the completion of [m]
    stands unless [f] raises. *)
Definition try_finally {P A} (m : M P A) (f : M P unit) : M P A :=
  fun s =>
    match m s with
    | (r, s') =>
        match f s' with
        | (inr _, s'') => (r, s'')
        | (inl e, s'') => (inl e, s'')
        end
    end.

Definition getProps {P} : M P P := fun s => (inr (props s), s).

Definition setProps {P} (p : P) : M P unit :=
  fun s => (inr tt, mkState (world s) p (log s)).

(** An awaited external call: logged, then answered by the oracle.  The
    callee is given values: it may change the world, not the request
    object. *)
Definition call {P X} (c : ext X) : M P X :=
  fun s =>
    match oracle X c (world s) with
    | (r, w') => (r, mkState w' (props s) (log s ++ [EvCall c]))
    end.

Definition emit {P} (ev : event) : M P unit :=
  fun s => (inr tt, mkState (world s) (props s) (log s ++ [ev])).

(** [h?.(st)] for a status callback [h]: when [h] is set the call is
    logged and [notify] answers it; the callback returns or raises. *)
Definition callStatus {P} (h : option Callback) (st : TTxStatus) : M P unit :=
  match h with
  | Some cb =>
      fun s =>
        match notify cb st (world s) with
        | (r, w') => (r, mkState w' (props s) (log s ++ [EvStatus cb st]))
        end
  | None => ret tt
  end.

(** [assert(cond, msg)] *)
Definition assert {P} (cond : bool) (msg : string) : M P unit :=
  if cond then ret tt else throw (AssertionError msg).

(** Modelled from the spec: [assertAddress] of [utils/toWagmiProvider] is
    not among the sources.  It raises the invalid-address condition, with
    the label it was given, when the address fails the validity test of the
    environment, and returns otherwise. *)
Definition assertAddress {P} (addr : option TAddress) (label : option string) : M P unit :=
  if validAddress addr then ret tt else throw (InvalidAddress label).

(** [for (const x of l) { body x }] *)
Fixpoint for_of {P A} (l : list A) (body : A -> M P unit) : M P unit :=
  match l with
  | [] => ret tt
  | x :: l' => bind (body x) (fun _ => for_of l' body)
  end.

End Monad.

Arguments mkState {E P}.
Arguments world {E P}.
Arguments props {E P}.
Arguments log {E P}.

Declare Scope action_scope.
Delimit Scope action_scope with action.
Notation "'let*' x ':=' c1 'in' c2" := (bind c1 (fun x => c2))
  (at level 10, x name, c1 at level 100, c2 at level 200) : action_scope.
Open Scope action_scope.

(** ** Library functions the helpers use *)

(** [toBigInt] of [@yearn-finance/web-lib]: the identity on a [bigint], [0n]
    on [undefined]. *)
Definition toBigInt (v : option Z) : Z :=
  match v with
  | Some n => n
  | None => 0
  end.

(** [a || b] where [a] is a [bigint] that may be [undefined]: [0n] and
    [undefined] are falsy. *)
Definition or_bigint (a : option Z) (b : Z) : Z :=
  match a with
  | Some n => if n =? 0 then b else n
  | None => b
  end.

(** [!v] for an optional [bigint]. *)
Definition falsy_bigint (v : option Z) : bool :=
  match v with
  | Some n => n =? 0
  | None => true
  end.

(** [Array(n).fill(x)] *)
Definition Array_fill {A} (n : nat) (x : A) : list A := repeat x n.

(** [{...st, pending: true}] and its siblings. *)
Definition with_pending (st : TTxStatus) (b : bool) : TTxStatus :=
  mkStatus (st_none st) b (st_success st) (st_error st).
Definition with_success (st : TTxStatus) (b : bool) : TTxStatus :=
  mkStatus (st_none st) (st_pending st) b (st_error st).
Definition with_error (st : TTxStatus) (b : bool) : TTxStatus :=
  mkStatus (st_none st) (st_pending st) (st_success st) b.

(** ** Request objects *)

Record TIsApprovedERC20 := {
  ia_connector : option Connector;
  ia_contractAddress : TAddress;
  ia_spenderAddress : TAddress;
  ia_amount : option Z
}.

Record TApproveERC20 := {
  ap_write : TWriteTransaction;
  ap_spenderAddress : option TAddress;
  ap_amount : Z
}.

Record TApproveAllERC721 := {
  aa_write : TWriteTransaction;
  aa_spenderAddress : option TAddress;
  aa_shouldAllow : bool
}.

Record TTransferERC721 := {
  t721_write : TWriteTransaction;
  t721_receiverAddress : option TAddress;
  t721_tokenID : Z
}.

Record TBatchTransferERC721 := {
  bt_write : TWriteTransaction;
  bt_collectionAddress : option TAddress;
  bt_receiverAddress : option TAddress;
  bt_tokenIDs : list Z
}.

Record TTransferERC1155 := {
  t1155_write : TWriteTransaction;
  t1155_receiverAddress : option TAddress;
  t1155_tokenIDs : list Z
}.

Record TListERC1155 := {
  l1155_write : TWriteTransaction;
  l1155_tokenIDs : list Z
}.

Record TTransferERC20 := {
  t20_write : TWriteTransaction;
  t20_receiverAddress : option TAddress;
  t20_amount : Z
}.

(** [Omit<TWriteTransaction, 'contractAddress'> & {...}] *)
Record TTransferEther := {
  te_connector : option Connector;
  te_statusHandler : option Callback;
  te_onTrySomethingElse : option Fallback;
  te_receiverAddress : option TAddress;
  te_amount : Z;
  te_shouldAdjustForGas : option bool
}.

Record TDisperseETH := {
  de_write : TWriteTransaction;
  de_receivers : list TAddress;
  de_amounts : list Z
}.

Record TDisperseERC20 := {
  d20_write : TWriteTransaction;
  d20_tokenToDisperse : option TAddress;
  d20_receivers : list TAddress;
  d20_amounts : list Z
}.

(** [props.onTrySomethingElse = f] on the request of [approveERC20]. *)
Definition set_onTrySomethingElse (p : TApproveERC20) (f : option Fallback) : TApproveERC20 :=
  {| ap_write := mkWrite (connector (ap_write p)) (contractAddress (ap_write p))
                         (statusHandler (ap_write p)) f;
     ap_spenderAddress := ap_spenderAddress p;
     ap_amount := ap_amount p |}.

(** [config.maxPriorityFeePerGas = v] *)
Definition set_maxPriorityFeePerGas (config : TSendConfig) (v : option Z) : TSendConfig :=
  mkConfig (cfg_to config) (cfg_value config) (gas config) v.

(** [receipt.status === 'success'] *)
Definition is_success (st : ReceiptStatus) : bool :=
  match st with
  | StatusSuccess => true
  | StatusReverted => false
  end.

(** [amounts.reduce(f, init)] *)
Definition reduce {A B} (f : B -> A -> B) (init : B) (l : list A) : B :=
  fold_left f l init.

(** The filtering loop of [transferERC1155] and [listERC1155]:
    [for (let i = 0; i < tokenIDs.length; i++)].  [rest] is [tokenIDs] from
    index [i] on, so that its head is [tokenIDs[i]]; [balanceOfBatch[i]] is
    [undefined] past the end of the answer, and [undefined > 0n] is false. *)
Fixpoint filter_from (i : nat) (rest balanceOfBatch filteredTokenIDs filteredAmounts : list Z)
  : list Z * list Z :=
  match rest with
  | [] => (filteredTokenIDs, filteredAmounts)
  | tokenID :: rest' =>
      match balanceOfBatch !! i with
      | Some balance =>
          if balance >? 0
          then filter_from (S i) rest' balanceOfBatch
                 (filteredTokenIDs ++ [tokenID]) (filteredAmounts ++ [balance])
          else filter_from (S i) rest' balanceOfBatch filteredTokenIDs filteredAmounts
      | None => filter_from (S i) rest' balanceOfBatch filteredTokenIDs filteredAmounts
      end
  end.

Definition filter_loop (tokenIDs balanceOfBatch : list Z) : list Z * list Z :=
  filter_from 0 tokenIDs balanceOfBatch [] [].

(** ** The helpers *)

Section Actions.
Context {E : Environment}.

Definition isApprovedERC20 : M TIsApprovedERC20 bool :=
  let* p := getProps in
  let* wagmiProvider := call (ToWagmiProvider (ia_connector p)) in
  let* result := call (ReadContract RetBigint wagmiProvider
    (mkCall (Some (ia_contractAddress p)) erc20ABI "allowance"
       [ArgAddress (wp_address wagmiProvider); ArgAddress (Some (ia_spenderAddress p))]
       None)) in
  ret (or_bigint (Some result) 0 >=? toBigInt (Some (or_bigint (ia_amount p) MAX_UINT_256))).

(** The closure stored in [props.onTrySomethingElse] by [approveERC20];
    it reads [props] when it runs. *)
Definition approveERC20_onTrySomethingElse : M TApproveERC20 TTxResponse :=
  let* p := getProps in
  let* _ := assertAddress (ap_spenderAddress p) (Some "spenderAddress") in
  call (HandleTx (ap_write p)
    (mkCall (contractAddress (ap_write p)) ALTERNATE_ERC20_APPROVE_ABI "approve"
       [ArgAddress (ap_spenderAddress p); ArgBigint (ap_amount p)] None)).

Definition approveERC20 : M TApproveERC20 TTxResponse :=
  let* p := getProps in
  let* _ := assertAddress (ap_spenderAddress p) (Some "spenderAddress") in
  let* _ := assertAddress (contractAddress (ap_write p)) None in
  let* _ := setProps (set_onTrySomethingElse p (Some AlternateApprove)) in
  let* p := getProps in
  call (HandleTx (ap_write p)
    (mkCall (contractAddress (ap_write p)) erc20ABI "approve"
       [ArgAddress (ap_spenderAddress p); ArgBigint (ap_amount p)] None)).

Definition approveAllERC721 : M TApproveAllERC721 TTxResponse :=
  let* p := getProps in
  let* _ := assertAddress (aa_spenderAddress p) (Some "spenderAddress") in
  let* _ := assertAddress (contractAddress (aa_write p)) None in
  call (HandleTx (aa_write p)
    (mkCall (contractAddress (aa_write p)) erc721ABI "setApprovalForAll"
       [ArgAddress (aa_spenderAddress p); ArgBool (aa_shouldAllow p)] None)).

Definition transferERC721 : M TTransferERC721 TTxResponse :=
  let* p := getProps in
  let* _ := assertAddress (t721_receiverAddress p) (Some "Receiver address") in
  let* _ := assertAddress (contractAddress (t721_write p)) (Some "Contract address") in
  let* wagmiProvider := call (ToWagmiProvider (connector (t721_write p))) in
  let* _ := assertAddress (wp_address wagmiProvider) (Some "User address") in
  call (HandleTx (t721_write p)
    (mkCall (contractAddress (t721_write p)) erc721ABI "safeTransferFrom"
       [ArgAddress (wp_address wagmiProvider); ArgAddress (t721_receiverAddress p);
        ArgBigint (t721_tokenID p)] None)).

Definition batchTransferERC721 : M TBatchTransferERC721 TTxResponse :=
  let* p := getProps in
  let* _ := assertAddress (bt_collectionAddress p) (Some "Collection address") in
  let* _ := assertAddress (bt_receiverAddress p) (Some "Receiver address") in
  let* _ := assertAddress (contractAddress (bt_write p)) (Some "Contract address") in
  call (HandleTx (bt_write p)
    (mkCall (contractAddress (bt_write p)) NFT_MIGRATOOOR_ABI "migrate"
       [ArgAddress (bt_collectionAddress p); ArgAddress (bt_receiverAddress p);
        ArgBigints (bt_tokenIDs p)] None)).

(** The [balanceOfBatch] query both ERC1155 helpers send. *)
Definition balanceOfBatch_call (contract : option TAddress) (wagmiProvider : TWagmiProvider)
    (tokenIDs : list Z) : TContractCall :=
  mkCall contract ERC1155_ABI "balanceOfBatch"
    [ArgAddresses (Array_fill (length tokenIDs) (wp_address wagmiProvider));
     ArgBigints tokenIDs] None.

Definition transferERC1155 : M TTransferERC1155 TTxResponse :=
  let* p := getProps in
  let* _ := assertAddress (t1155_receiverAddress p) (Some "Receiver address") in
  let* _ := assertAddress (contractAddress (t1155_write p)) (Some "Contract address") in
  let* wagmiProvider := call (ToWagmiProvider (connector (t1155_write p))) in
  let* _ := assertAddress (wp_address wagmiProvider) (Some "User address") in
  let* balanceOfBatch := call (ReadContract RetBigints wagmiProvider
    (balanceOfBatch_call (contractAddress (t1155_write p)) wagmiProvider (t1155_tokenIDs p))) in
  let filtered := filter_loop (t1155_tokenIDs p) balanceOfBatch in
  let* _ := assert (0 <? length (fst filtered))%nat "No tokens to transfer" in
  call (HandleTx (t1155_write p)
    (mkCall (contractAddress (t1155_write p)) ERC1155_ABI "safeBatchTransferFrom"
       [ArgAddress (wp_address wagmiProvider); ArgAddress (t1155_receiverAddress p);
        ArgBigints (fst filtered); ArgBigints (snd filtered); ArgBytes "0x"] None)).

Definition listERC1155 : M TListERC1155 (list Z * list Z) :=
  let* p := getProps in
  let* _ := assertAddress (contractAddress (l1155_write p)) (Some "Contract address") in
  let* wagmiProvider := call (ToWagmiProvider (connector (l1155_write p))) in
  let* _ := assertAddress (wp_address wagmiProvider) (Some "User address") in
  let* balanceOfBatch := call (ReadContract RetBigints wagmiProvider
    (balanceOfBatch_call (contractAddress (l1155_write p)) wagmiProvider (l1155_tokenIDs p))) in
  let filtered := filter_loop (l1155_tokenIDs p) balanceOfBatch in
  ret (fst filtered, snd filtered).

Definition transferERC20 : M TTransferERC20 TTxResponse :=
  let* p := getProps in
  let* _ := assertAddress (t20_receiverAddress p) (Some "receiverAddress") in
  let* _ := assertAddress (contractAddress (t20_write p)) None in
  call (HandleTx (t20_write p)
    (mkCall (contractAddress (t20_write p)) erc20ABI "transfer"
       [ArgAddress (t20_receiverAddress p); ArgBigint (t20_amount p)] None)).

(** The [if (props.shouldAdjustForGas)] block of [transferEther]: the new
    [config]. *)
Definition adjustForGas (p : TTransferEther) (wagmiProvider : TWagmiProvider)
    (config : TSendConfig) : M TTransferEther TSendConfig :=
  let* config :=
    (if falsy_bigint (maxPriorityFeePerGas config)
     then
       let* client := call (GetPublicClient (chainId wagmiProvider)) in
       let* gasPrice := call (GetGasPrice client) in
       ret (set_maxPriorityFeePerGas config (Some gasPrice))
     else ret config) in
  let newAmount := toBigInt (gas config) * toBigInt (maxPriorityFeePerGas config) + 21000 in
  call (PrepareSendTransaction wagmiProvider (te_receiverAddress p) (te_amount p - newAmount)).

(** The first statements of the [try] block of [transferEther]: the
    [config] that is sent. *)
Definition prepareConfig (p : TTransferEther) (wagmiProvider : TWagmiProvider)
    : M TTransferEther TSendConfig :=
  let* config :=
    call (PrepareSendTransaction wagmiProvider (te_receiverAddress p) (te_amount p)) in
  match te_shouldAdjustForGas p with
  | Some true => adjustForGas p wagmiProvider config
  | _ => ret config
  end.

(** The rest of the [try] block: submission, confirmation, status and
    result. *)
Definition sendAndConfirm (p : TTransferEther) (wagmiProvider : TWagmiProvider)
    (config : TSendConfig) : M TTransferEther TTxResponse :=
  let* hash := call (SendTransaction config) in
  let* receipt := call (WaitForTransaction (chainId wagmiProvider) hash) in
  let* _ :=
    (match status receipt with
     | StatusSuccess => callStatus (te_statusHandler p) (with_success defaultTxStatus true)
     | StatusReverted => callStatus (te_statusHandler p) (with_error defaultTxStatus true)
     end) in
  ret (mkResponse (is_success (status receipt)) (Some receipt) None).

(** The [try] block of [transferEther]. *)
Definition transferEther_try (p : TTransferEther) (wagmiProvider : TWagmiProvider)
    : M TTransferEther TTxResponse :=
  let* config := prepareConfig p wagmiProvider in
  sendAndConfirm p wagmiProvider config.

(** The [catch (error)] block.  A thrown value is an error object, hence
    truthy: [errorAsBaseError || ''] is the error. *)
Definition transferEther_catch (p : TTransferEther) (error : exn)
    : M TTransferEther TTxResponse :=
  let* _ := emit (EvConsoleError error) in
  let* _ := callStatus (te_statusHandler p) (with_error defaultTxStatus true) in
  ret (mkResponse false None (Some error)).

(** The [finally] block: the timer that resets the status after 3 s. *)
Definition transferEther_finally (p : TTransferEther) : M TTransferEther unit :=
  emit (EvSetTimeout 3000 (te_statusHandler p) defaultTxStatus).

Definition transferEther : M TTransferEther TTxResponse :=
  let* p := getProps in
  let* _ := assertAddress (te_receiverAddress p) (Some "receiverAddress") in
  let* _ := callStatus (te_statusHandler p) (with_pending defaultTxStatus true) in
  let* wagmiProvider := call (ToWagmiProvider (te_connector p)) in
  let* _ := assertAddress (wp_address wagmiProvider) (Some "userAddress") in
  try_finally
    (try_catch (transferEther_try p wagmiProvider) (transferEther_catch p))
    (transferEther_finally p).

Definition disperseETH : M TDisperseETH TTxResponse :=
  let* p := getProps in
  let* _ := assertAddress (contractAddress (de_write p)) None in
  let* _ := for_of (de_receivers p)
              (fun receiver => assertAddress (Some receiver) (Some receiver)) in
  let* _ := for_of (de_amounts p)
              (fun amount => assert (amount >? 0) "amount must be greater than 0") in
  let* _ := assert (length (de_receivers p) =? length (de_amounts p))%nat
              "receivers and amounts must be the same length" in
  call (HandleTx (de_write p)
    (mkCall (contractAddress (de_write p)) DISPERSE_ABI "disperseEther"
       [ArgAddresses (map Some (de_receivers p)); ArgBigints (de_amounts p)]
       (Some (reduce (fun a b => a + b) 0 (de_amounts p))))).

Definition disperseERC20 : M TDisperseERC20 TTxResponse :=
  let* p := getProps in
  let* _ := assertAddress (d20_tokenToDisperse p) (Some "The tokenToDisperse") in
  let* _ := assertAddress (contractAddress (d20_write p)) None in
  let* _ := for_of (d20_receivers p)
              (fun receiver => assertAddress (Some receiver) (Some receiver)) in
  let* _ := for_of (d20_amounts p)
              (fun amount => assert (amount >? 0) "amount must be greater than 0") in
  let* _ := assert (length (d20_receivers p) =? length (d20_amounts p))%nat
              "receivers and amounts must be the same length" in
  call (HandleTx (d20_write p)
    (mkCall (contractAddress (d20_write p)) DISPERSE_ABI "disperseToken"
       [ArgAddress (d20_tokenToDisperse p); ArgAddresses (map Some (d20_receivers p));
        ArgBigints (d20_amounts p)] None)).

End Actions.

(** ** Specification-level definitions *)

(** The token ids with a strictly positive queried balance, each paired with
    its balance, in input order. *)
Definition positive_balances (tokenIDs balances : list Z) : list (Z * Z) :=
  List.filter (fun tb => snd tb >? 0) (combine tokenIDs balances).

(** The arithmetic sum of a list of amounts. *)
Definition sum_amounts (amounts : list Z) : Z := fold_right Z.add 0 amounts.

(** The contract functions section 6 of the specification lists. *)
Definition listed_functions : list string :=
  ["transfer"; "approve"; "setApprovalForAll"; "safeTransferFrom";
   "safeBatchTransferFrom"; "balanceOfBatch"; "migrate"; "disperseEther";
   "disperseToken"].

(** The contract functions the helpers invoke. *)
Definition invoked_functions : list string := "allowance" :: listed_functions.

Definition is_nil {A} (l : list A) : bool :=
  match l with
  | [] => true
  | _ :: _ => false
  end.

(** A batch with no receiver or no amount. *)
Definition empty_batch (receivers : list TAddress) (amounts : list Z) : bool :=
  is_nil receivers || is_nil amounts.

(** The conditions the validation of the dispersal helpers raises with. *)
Definition validation_condition (e : exn) : Prop :=
  match e with
  | InvalidAddress _ => True
  | AssertionError msg =>
      msg = "amount must be greater than 0"
      \/ msg = "receivers and amounts must be the same length"
  | BaseError _ => False
  end.

Section Predicates.
Context {E : Environment}.

(** Some receiver is not a valid address, some amount is not positive, or
    the two arrays differ in length. *)
Definition invalid_batch (receivers : list TAddress) (amounts : list Z) : bool :=
  existsb (fun receiver => negb (validAddress (Some receiver))) receivers
  || existsb (fun amount => amount <=? 0) amounts
  || negb (length receivers =? length amounts)%nat.

Definition disperseETH_invalid (p : TDisperseETH) : bool :=
  negb (validAddress (contractAddress (de_write p)))
  || invalid_batch (de_receivers p) (de_amounts p).

Definition disperseERC20_invalid (p : TDisperseERC20) : bool :=
  negb (validAddress (d20_tokenToDisperse p))
  || negb (validAddress (contractAddress (d20_write p)))
  || invalid_batch (d20_receivers p) (d20_amounts p).

(** The call [disperseETH] submits. *)
Definition disperseEther_call (p : TDisperseETH) : TContractCall :=
  mkCall (contractAddress (de_write p)) DISPERSE_ABI "disperseEther"
    [ArgAddresses (map Some (de_receivers p)); ArgBigints (de_amounts p)]
    (Some (sum_amounts (de_amounts p))).

(** The call [disperseERC20] submits. *)
Definition disperseToken_call (p : TDisperseERC20) : TContractCall :=
  mkCall (contractAddress (d20_write p)) DISPERSE_ABI "disperseToken"
    [ArgAddress (d20_tokenToDisperse p); ArgAddresses (map Some (d20_receivers p));
     ArgBigints (d20_amounts p)] None.

(** The call raises [e] before anything left the helper: the state, and
    with it the log, is as it was. *)
Definition raises_at_once {P A} (m : M P A) (s : State P) (e : exn) : Prop :=
  m s = (inl e, s).

(** The events a call adds to the log. *)
Definition emitted {P A} (m : M P A) (s : State P) : list event :=
  drop (length (log s)) (log (snd (m s))).

(** [R] relates the state before any call of [m] to the state after. *)
Definition stable {P A} (R : State P -> State P -> Prop) (m : M P A) : Prop :=
  forall s, R s (snd (m s)).

(** The log of [s'] extends the log of [s], and every contract call added
    invokes a function of [names]. *)
Definition log_extends (names : list string) {P} (s s' : State P) : Prop :=
  exists l,
    log s' = log s ++ l
    /\ forall ev n, In ev l -> contract_function ev = Some n -> In n names.

(** [m] only extends the log, and every contract call it adds invokes a
    function of [names]. *)
Definition only_invokes (names : list string) {P A} (m : M P A) : Prop :=
  stable (log_extends names) m.

(** Some contract call [m] adds to the log invokes [n]. *)
Definition invokes (n : string) {P A} (m : M P A) (s : State P) : Prop :=
  exists ev, In ev (emitted m s) /\ contract_function ev = Some n.

(** Every helper of the module, and the closure [approveERC20] stores,
    only invokes functions of [names]. *)
Definition helpers_only_invoke (names : list string) : Prop :=
  only_invokes names isApprovedERC20
  /\ only_invokes names approveERC20
  /\ only_invokes names approveERC20_onTrySomethingElse
  /\ only_invokes names approveAllERC721
  /\ only_invokes names transferERC721
  /\ only_invokes names batchTransferERC721
  /\ only_invokes names transferERC1155
  /\ only_invokes names listERC1155
  /\ only_invokes names transferERC20
  /\ only_invokes names transferEther
  /\ only_invokes names disperseETH
  /\ only_invokes names disperseERC20.

Definition same_props {P} (s s' : State P) : Prop := props s' = props s.

(** [m] leaves the request object as it found it. *)
Definition preserves_props {P A} (m : M P A) : Prop := stable same_props m.

End Predicates.

(** ** Concrete environments *)

Module Demo.

Definition receipt0 : TReceipt := mkReceipt StatusSuccess "0xhash".
Definition provider0 : TWagmiProvider := mkProvider 1 (Some "0xUser").
Definition status0 : TTxStatus := mkStatus true false false false.

(** An address is valid when it is set and starts with [0x]. *)
Definition valid0 (a : option TAddress) : bool :=
  match a with
  | Some s => String.prefix "0x" s
  | None => false
  end.

(** Every external call succeeds; the world is the number of calls
    answered. *)
Definition answer (X : Type) (c : ext X) (w : nat) : (exn + X) * nat :=
  match c in ext X return (exn + X) * nat with
  | ToWagmiProvider _ => (inr provider0, S w)
  | ReadContract ty _ _ =>
      (inr (match ty return ret_type ty with
            | RetBigint => 5
            | RetBigints => [0; 3; 0; 7]
            end), S w)
  | HandleTx _ _ => (inr (mkResponse true (Some receipt0) None), S w)
  | PrepareSendTransaction _ to v => (inr (mkConfig to v (Some 21000) None), S w)
  | GetPublicClient chain => (inr chain, S w)
  | GetGasPrice _ => (inr 10, S w)
  | SendTransaction _ => (inr "0xhash", S w)
  | WaitForTransaction _ h => (inr (mkReceipt StatusSuccess h), S w)
  end.

Definition env : Environment :=
  {| World := nat;
     validAddress := valid0;
     oracle := answer;
     notify := fun _ _ w => (inr tt, w);
     defaultTxStatus := status0;
     MAX_UINT_256 := 2 ^ 256 - 1 |}.

(** As [answer], but the submission is rejected. *)
Definition answer_rejected (X : Type) (c : ext X) (w : nat) : (exn + X) * nat :=
  match c in ext X return (exn + X) * nat with
  | SendTransaction _ => (inl (BaseError "UserRejectedRequestError"), S w)
  | c' => answer _ c' w
  end.


(** As [answer], but every queried balance is zero. *)
Definition answer_no_balance (X : Type) (c : ext X) (w : nat) : (exn + X) * nat :=
  match c in ext X return (exn + X) * nat with
  | ReadContract ty _ _ =>
      (inr (match ty return ret_type ty with
            | RetBigint => 0
            | RetBigints => [0; 0]
            end), S w)
  | c' => answer _ c' w
  end.

Definition env_no_balance : Environment :=
  {| World := nat;
     validAddress := valid0;
     oracle := answer_no_balance;
     notify := fun _ _ w => (inr tt, w);
     defaultTxStatus := status0;
     MAX_UINT_256 := 2 ^ 256 - 1 |}.

Definition write0 : TWriteTransaction :=
  mkWrite (Some "injected") (Some "0xContract") (Some "set_txStatus") None.

(** The state in which a helper is called on [p]: nothing logged yet. *)
Definition start (E : Environment) {P} (p : P) (w : @World E) : State P := mkState w p [].

Definition disperse2 : TDisperseETH :=
  {| de_write := write0; de_receivers := ["0xA11ce"; "0xB0b"]; de_amounts := [1; 2] |}.

Definition isApproved3 : TIsApprovedERC20 :=
  {| ia_connector := Some "injected"; ia_contractAddress := "0xToken";
     ia_spenderAddress := "0xSpender"; ia_amount := Some 3 |}.

Definition allowance_call : TContractCall :=
  mkCall (Some "0xToken") erc20ABI "allowance"
    [ArgAddress (Some "0xUser"); ArgAddress (Some "0xSpender")] None.

Definition ether : TTransferEther :=
  {| te_connector := Some "injected"; te_statusHandler := Some "set_txStatus";
     te_onTrySomethingElse := None; te_receiverAddress := Some "0xReceiver";
     te_amount := 1000000; te_shouldAdjustForGas := Some true |}.

Definition approve : TApproveERC20 :=
  {| ap_write := write0; ap_spenderAddress := Some "0xSpender"; ap_amount := 100 |}.

Definition approveAll : TApproveAllERC721 :=
  {| aa_write := write0; aa_spenderAddress := Some "0xSpender"; aa_shouldAllow := true |}.

Definition transfer721 : TTransferERC721 :=
  {| t721_write := write0; t721_receiverAddress := Some "0xReceiver"; t721_tokenID := 7 |}.

Definition batch721 : TBatchTransferERC721 :=
  {| bt_write := write0; bt_collectionAddress := Some "0xCollection";
     bt_receiverAddress := Some "0xReceiver"; bt_tokenIDs := [1; 2] |}.

Definition transfer20 : TTransferERC20 :=
  {| t20_write := write0; t20_receiverAddress := Some "0xReceiver"; t20_amount := 100 |}.

Definition disperse20 : TDisperseERC20 :=
  {| d20_write := write0; d20_tokenToDisperse := Some "0xToken";
     d20_receivers := ["0xA11ce"; "0xB0b"]; d20_amounts := [1; 2] |}.

Definition tokens4 : list Z := [11; 12; 13; 14].

Definition transfer1155 : TTransferERC1155 :=
  {| t1155_write := write0; t1155_receiverAddress := Some "0xReceiver";
     t1155_tokenIDs := tokens4 |}.

Definition list1155 : TListERC1155 :=
  {| l1155_write := write0; l1155_tokenIDs := tokens4 |}.

Definition disperse_zero : TDisperseETH :=
  {| de_write := write0; de_receivers := ["0xA11ce"; "0xB0b"]; de_amounts := [1; 0] |}.

Definition disperse_none : TDisperseETH :=
  {| de_write := write0; de_receivers := []; de_amounts := [] |}.

(** The states a call of [transferEther] on [ether] goes through: the
    pending status is reported, the provider resolved, the request
    prepared, the gas price fetched. *)
Definition run_until_fee (E : Environment) (w : @World E) : list (State TTransferEther) :=
  let s0 := snd (callStatus (te_statusHandler ether) (with_pending defaultTxStatus true)
                   (start E ether w)) in
  let s1 := snd (call (ToWagmiProvider (te_connector ether)) s0) in
  let s2 := snd (call (PrepareSendTransaction provider0 (te_receiverAddress ether)
                         (te_amount ether)) s1) in
  let s3 := snd (call (GetPublicClient 1) s2) in
  let s4 := snd (call (GetGasPrice 1) s3) in
  [s1; s2; s3; s4].

Definition state_at (E : Environment) (w : @World E) (i : nat) : State TTransferEther :=
  nth i (run_until_fee E w) (start E ether w).

(** What [prepareSendTransaction] answers to the first request of
    [ether], and to the adjusted one. *)
Definition config0 : TSendConfig := mkConfig (Some "0xReceiver") 1000000 (Some 21000) None.
Definition config1 : TSendConfig := mkConfig (Some "0xReceiver") 769000 (Some 21000) None.

(** Each of the ten functions is invoked by a call of some helper. *)
Definition each_function_invoked : Prop :=
  invokes (E:=env) "allowance" isApprovedERC20 (start env isApproved3 0%nat)
  /\ invokes (E:=env) "transfer" transferERC20 (start env transfer20 0%nat)
  /\ invokes (E:=env) "approve" approveERC20 (start env approve 0%nat)
  /\ invokes (E:=env) "setApprovalForAll" approveAllERC721 (start env approveAll 0%nat)
  /\ invokes (E:=env) "safeTransferFrom" transferERC721 (start env transfer721 0%nat)
  /\ invokes (E:=env) "safeBatchTransferFrom" transferERC1155
       (start env transfer1155 0%nat)
  /\ invokes (E:=env) "balanceOfBatch" listERC1155 (start env list1155 0%nat)
  /\ invokes (E:=env) "migrate" batchTransferERC721 (start env batch721 0%nat)
  /\ invokes (E:=env) "disperseEther" disperseETH (start env disperse2 0%nat)
  /\ invokes (E:=env) "disperseToken" disperseERC20 (start env disperse20 0%nat).

End Demo.

(** ** Further predicates on the log *)

(** The event hands a transaction to the wallet: a [handleTx] or a
    [sendTransaction]. *)
Definition is_submission (ev : event) : bool :=
  match ev with
  | EvCall c =>
      match c with
      | HandleTx _ _ => true
      | SendTransaction _ => true
      | _ => false
      end
  | _ => false
  end.

(** The event schedules a timer. *)
Definition is_timer (ev : event) : bool :=
  match ev with
  | EvSetTimeout _ _ _ => true
  | _ => false
  end.

(** The call descriptor of a [handleTx] event. *)
Definition submitted_call (ev : event) : option TContractCall :=
  match ev with
  | EvCall c =>
      match c with
      | HandleTx _ d => Some d
      | _ => None
      end
  | _ => None
  end.

(** The provider and the call descriptor of a [readContract] event. *)
Definition read_query (ev : event) : option (TWagmiProvider * TContractCall) :=
  match ev with
  | EvCall c =>
      match c with
      | ReadContract _ wagmiProvider d => Some (wagmiProvider, d)
      | _ => None
      end
  | _ => None
  end.

(** How many events of [l] hand a transaction to the wallet. *)
Definition submissions (l : list event) : nat := length (List.filter is_submission l).

Section LogPredicates.
Context {E : Environment}.

(** The log of [s'] extends the log of [s] by events that satisfy [Q]. *)
Definition log_adds (Q : event -> Prop) {P} (s s' : State P) : Prop :=
  exists l, log s' = log s ++ l /\ Forall Q l.

(** The status callback [h] of a request, if there is one, returns whenever
    it is called. *)
Definition callback_returns (h : option Callback) : Prop :=
  forall cb st w, h = Some cb -> fst (notify cb st w) = inr tt.

(** A call of [m] only extends the log, by at most [n] submissions. *)
Definition submits_at_most (n : nat) {P A} (m : M P A) : Prop :=
  forall s, exists l, log (snd (m s)) = log s ++ l /\ (submissions l <= n)%nat.

End LogPredicates.

(** ** Further concrete requests and environments *)

Module Cases.

(** A receiver that is not an address, and an amount of 0 after it. *)
Definition disperse_mixed : TDisperseETH :=
  {| de_write := Demo.write0; de_receivers := ["0xA11ce"; "bob"; "carol"];
     de_amounts := [1; 0] |}.

(** The caller brings a fallback of its own. *)
Definition approve_with_fallback : TApproveERC20 :=
  {| ap_write := mkWrite (Some "injected") (Some "0xContract") None
                   (Some (CallerFallback "retry"));
     ap_spenderAddress := Some "0xSpender"; ap_amount := 0 |}.

Definition batch_empty : TBatchTransferERC721 :=
  {| bt_write := Demo.write0; bt_collectionAddress := Some "0xCollection";
     bt_receiverAddress := Some "0xReceiver"; bt_tokenIDs := [] |}.

Definition isApproved2 : TIsApprovedERC20 :=
  {| ia_connector := Some "injected"; ia_contractAddress := "0xToken";
     ia_spenderAddress := "0xSpender"; ia_amount := Some 2 |}.

Definition ether_plain : TTransferEther :=
  {| te_connector := Some "injected"; te_statusHandler := Some "set_txStatus";
     te_onTrySomethingElse := None; te_receiverAddress := Some "0xReceiver";
     te_amount := 1000000; te_shouldAdjustForGas := None |}.

(** As [Demo.answer], but the transaction is mined and reverted. *)
Definition answer_reverted (X : Type) (c : ext X) (w : nat) : (exn + X) * nat :=
  match c in ext X return (exn + X) * nat with
  | WaitForTransaction _ h => (inr (mkReceipt StatusReverted h), S w)
  | c' => Demo.answer _ c' w
  end.

Definition env_reverted : Environment :=
  {| World := nat;
     validAddress := Demo.valid0;
     oracle := answer_reverted;
     notify := fun _ _ w => (inr tt, w);
     defaultTxStatus := Demo.status0;
     MAX_UINT_256 := 2 ^ 256 - 1 |}.

(** The balance of a token id: the even ids are held, [id - 9] of each. *)
Definition balance_of (id : Z) : Z := if Z.even id then id - 9 else 0.

(** As [Demo.answer], but [balanceOfBatch] answers for the ids it is asked
    about. *)
Definition answer_by_id (X : Type) (c : ext X) (w : nat) : (exn + X) * nat :=
  match c in ext X return (exn + X) * nat with
  | ReadContract ty _ d =>
      (inr (match ty return ret_type ty with
            | RetBigint => 5
            | RetBigints =>
                match args d with
                | [_; ArgBigints ids] => map balance_of ids
                | _ => []
                end
            end), S w)
  | c' => Demo.answer _ c' w
  end.

Definition env_by_id : Environment :=
  {| World := nat;
     validAddress := Demo.valid0;
     oracle := answer_by_id;
     notify := fun _ _ w => (inr tt, w);
     defaultTxStatus := Demo.status0;
     MAX_UINT_256 := 2 ^ 256 - 1 |}.

Definition transfer_listed : TTransferERC1155 :=
  {| t1155_write := Demo.write0; t1155_receiverAddress := Some "0xReceiver";
     t1155_tokenIDs := [12; 14] |}.

(** Less than the flat allowance of 21000 wei, with the adjustment on. *)
Definition ether_dust : TTransferEther :=
  {| te_connector := Some "injected"; te_statusHandler := Some "set_txStatus";
     te_onTrySomethingElse := None; te_receiverAddress := Some "0xReceiver";
     te_amount := 1000; te_shouldAdjustForGas := Some true |}.

(** As [Demo.answer], but the request cannot be prepared. *)
Definition answer_unfunded (X : Type) (c : ext X) (w : nat) : (exn + X) * nat :=
  match c in ext X return (exn + X) * nat with
  | PrepareSendTransaction _ _ _ => (inl (BaseError "InsufficientFundsError"), S w)
  | c' => Demo.answer _ c' w
  end.

Definition env_unfunded : Environment :=
  {| World := nat;
     validAddress := Demo.valid0;
     oracle := answer_unfunded;
     notify := fun _ _ w => (inr tt, w);
     defaultTxStatus := Demo.status0;
     MAX_UINT_256 := 2 ^ 256 - 1 |}.

(** A status callback that raises when the status it is given satisfies
    [f], and returns otherwise. *)
Definition raising_on (f : TTxStatus -> bool) (cb : Callback) (st : TTxStatus) (w : nat)
  : (exn + unit) * nat :=
  if f st then (inl (BaseError "TypeError"), w) else (inr tt, w).

(** Every call succeeds, but the callback raises on the success status. *)
Definition env_raises_on_success : Environment :=
  {| World := nat;
     validAddress := Demo.valid0;
     oracle := Demo.answer;
     notify := raising_on st_success;
     defaultTxStatus := Demo.status0;
     MAX_UINT_256 := 2 ^ 256 - 1 |}.

(** The submission is rejected, and the callback raises on the error
    status. *)
Definition env_raises_on_error : Environment :=
  {| World := nat;
     validAddress := Demo.valid0;
     oracle := Demo.answer_rejected;
     notify := raising_on st_error;
     defaultTxStatus := Demo.status0;
     MAX_UINT_256 := 2 ^ 256 - 1 |}.

End Cases.

(** * Properties *)

(** ** The monad *)

Section MonadFacts.
Context {E : Environment}.

Lemma bind_returns {P A B} (m : M P A) (k : A -> M P B) s a s' :
  m s = (inr a, s') -> bind m k s = k a s'.
Proof. intros H. unfold bind. now rewrite H. Qed.

Lemma bind_raises {P A B} (m : M P A) (k : A -> M P B) s e s' :
  m s = (inl e, s') -> bind m k s = (inl e, s').
Proof. intros H. unfold bind. now rewrite H. Qed.

Lemma bind_getProps {P B} (k : P -> M P B) s :
  bind getProps k s = k (props s) s.
Proof. reflexivity. Qed.

Lemma assertAddress_valid {P} addr label (s : State P) :
  validAddress addr = true -> assertAddress addr label s = (inr tt, s).
Proof. intros H. unfold assertAddress. now rewrite H. Qed.

Lemma assertAddress_invalid {P} addr label (s : State P) :
  validAddress addr = false -> assertAddress addr label s = (inl (InvalidAddress label), s).
Proof. intros H. unfold assertAddress. now rewrite H. Qed.

(** The loop over the receivers returns when all of them are valid and
    raises at the first that is not. *)
Lemma for_of_receivers {P} (receivers : list TAddress) (s : State P) :
  for_of receivers (fun receiver => assertAddress (Some receiver) (Some receiver)) s
  = (if existsb (fun receiver => negb (validAddress (Some receiver))) receivers
     then inl (InvalidAddress
                 (find (fun receiver => negb (validAddress (Some receiver))) receivers))
     else inr tt, s).
Proof.
  induction receivers as [|r rs IH]; simpl; [reflexivity|].
  destruct (validAddress (Some r)) eqn:Hr; simpl.
  - rewrite (bind_returns _ _ s tt s) by now apply assertAddress_valid.
    exact IH.
  - now rewrite (bind_raises _ _ s (InvalidAddress (Some r)) s)
      by now apply assertAddress_invalid.
Qed.

(** The loop over the amounts returns when all of them are positive and
    raises at the first that is not. *)
Lemma for_of_amounts {P} (amounts : list Z) (s : State P) :
  for_of amounts (fun amount => assert (amount >? 0) "amount must be greater than 0") s
  = (if existsb (fun amount => amount <=? 0) amounts
     then inl (AssertionError "amount must be greater than 0")
     else inr tt, s).
Proof.
  induction amounts as [|a l IH]; simpl; [reflexivity|].
  unfold bind, assert. destruct (Z.leb_spec a 0) as [Ha|Ha]; simpl.
  - now replace (a >? 0) with false by (symmetry; rewrite Z.gtb_ltb; apply Z.ltb_ge; lia).
  - replace (a >? 0) with true by (symmetry; rewrite Z.gtb_ltb; apply Z.ltb_lt; lia).
    exact IH.
Qed.

(** A state to which an event was added is not the state before. *)
Lemma logged_state_differs {P} (s : State P) w p ev :
  mkState w p (log s ++ [ev]) <> s.
Proof.
  intros H. apply (f_equal log) in H. simpl in H.
  apply (f_equal (@length event)) in H. rewrite length_app in H. simpl in H. lia.
Qed.

(** A call leaves a trace: the state after it is not the state before. *)
Lemma call_differs {P X} (c : ext X) (s : State P) r :
  call c s = (r, s) -> False.
Proof.
  intros H. unfold call in H. destruct (oracle X c (world s)) as [r0 w'].
  inversion H as [[Hr Hs]]. now apply logged_state_differs in Hs.
Qed.

End MonadFacts.

(** ** Dispersal: validation, and what is submitted *)

Section Disperse.
Context {E : Environment}.

(** [reduce] with [+] from [0n] is the sum. *)
Lemma reduce_add_sum (amounts : list Z) (init : Z) :
  reduce (fun a b => a + b) init amounts = init + sum_amounts amounts.
Proof.
  unfold reduce. revert init.
  induction amounts as [|a l IH]; intros init; simpl; [lia|].
  rewrite IH. lia.
Qed.

Lemma disperseETH_run (s : State TDisperseETH) :
  let p := props s in
  disperseETH s
  = if disperseETH_invalid p
    then (inl (if negb (validAddress (contractAddress (de_write p)))
               then InvalidAddress None
               else if existsb (fun r => negb (validAddress (Some r))) (de_receivers p)
               then InvalidAddress
                      (find (fun r => negb (validAddress (Some r))) (de_receivers p))
               else if existsb (fun a => a <=? 0) (de_amounts p)
               then AssertionError "amount must be greater than 0"
               else AssertionError "receivers and amounts must be the same length"), s)
    else call (HandleTx (de_write p) (disperseEther_call p)) s.
Proof.
  intros p. unfold disperseETH. rewrite bind_getProps. fold p.
  unfold disperseETH_invalid, invalid_batch, disperseEther_call.
  rewrite <- (Z.add_0_l (sum_amounts _)), <- reduce_add_sum.
  destruct (validAddress (contractAddress (de_write p))) eqn:Hc; cbn [negb orb];
    [|now erewrite bind_raises by now apply assertAddress_invalid].
  erewrite bind_returns by now apply assertAddress_valid.
  unfold bind at 1. rewrite for_of_receivers.
  destruct (existsb _ (de_receivers p)); cbn [negb orb]; [reflexivity|].
  unfold bind at 1. rewrite for_of_amounts.
  destruct (existsb _ (de_amounts p)); cbn [negb orb]; [reflexivity|].
  unfold bind, assert.
  destruct (length (de_receivers p) =? length (de_amounts p))%nat; reflexivity.
Qed.

Lemma disperseERC20_run (s : State TDisperseERC20) :
  let p := props s in
  disperseERC20 s
  = if disperseERC20_invalid p
    then (inl (if negb (validAddress (d20_tokenToDisperse p))
               then InvalidAddress (Some "The tokenToDisperse")
               else if negb (validAddress (contractAddress (d20_write p)))
               then InvalidAddress None
               else if existsb (fun r => negb (validAddress (Some r))) (d20_receivers p)
               then InvalidAddress
                      (find (fun r => negb (validAddress (Some r))) (d20_receivers p))
               else if existsb (fun a => a <=? 0) (d20_amounts p)
               then AssertionError "amount must be greater than 0"
               else AssertionError "receivers and amounts must be the same length"), s)
    else call (HandleTx (d20_write p) (disperseToken_call p)) s.
Proof.
  intros p. unfold disperseERC20. rewrite bind_getProps. fold p.
  unfold disperseERC20_invalid, invalid_batch, disperseToken_call.
  destruct (validAddress (d20_tokenToDisperse p)) eqn:Ht; cbn [negb orb];
    [|now erewrite bind_raises by now apply assertAddress_invalid].
  erewrite bind_returns by now apply assertAddress_valid.
  destruct (validAddress (contractAddress (d20_write p))) eqn:Hc; cbn [negb orb];
    [|now erewrite bind_raises by now apply assertAddress_invalid].
  erewrite bind_returns by now apply assertAddress_valid.
  unfold bind at 1. rewrite for_of_receivers.
  destruct (existsb _ (d20_receivers p)); cbn [negb orb]; [reflexivity|].
  unfold bind at 1. rewrite for_of_amounts.
  destruct (existsb _ (d20_amounts p)); cbn [negb orb]; [reflexivity|].
  unfold bind, assert.
  destruct (length (d20_receivers p) =? length (d20_amounts p))%nat; reflexivity.
Qed.

(** C2: when [disperseETH] passes validation, the value attached to the
    [disperseEther] call is the arithmetic sum of the entries of [amounts]
    (0 for the empty list), and [receivers] and [amounts] are passed as
    they are. *)
Theorem disperseETH_attaches_sum (s : State TDisperseETH) :
  disperseETH_invalid (props s) = false ->
  disperseETH s
  = call (HandleTx (de_write (props s))
            (mkCall (contractAddress (de_write (props s))) DISPERSE_ABI "disperseEther"
               [ArgAddresses (map Some (de_receivers (props s)));
                ArgBigints (de_amounts (props s))]
               (Some (sum_amounts (de_amounts (props s)))))) s
  /\ sum_amounts [] = 0.
Proof.
  intros Hvalid. split; [|reflexivity].
  pose proof (disperseETH_run s) as Hrun. cbv zeta in Hrun.
  now rewrite Hvalid in Hrun.
Qed.

(** C3 (amended): [disperseETH] and [disperseERC20] raise at once, before
    anything is submitted, exactly when an address (contract, token or a
    receiver) is invalid, an amount is not positive, or the two arrays
    differ in length; the condition raised names the failure.  An empty
    batch is not a validation failure: with valid addresses it is
    submitted. *)
Theorem disperse_raises_iff_invalid :
  (forall s : State TDisperseETH,
      (disperseETH_invalid (props s) = true <-> exists e, raises_at_once disperseETH s e)
      /\ (forall e, raises_at_once disperseETH s e -> validation_condition e)
      /\ (validAddress (contractAddress (de_write (props s))) = true ->
          de_receivers (props s) = [] -> de_amounts (props s) = [] ->
          disperseETH s
          = call (HandleTx (de_write (props s)) (disperseEther_call (props s))) s))
  /\ (forall s : State TDisperseERC20,
      (disperseERC20_invalid (props s) = true <-> exists e, raises_at_once disperseERC20 s e)
      /\ (forall e, raises_at_once disperseERC20 s e -> validation_condition e)
      /\ (validAddress (d20_tokenToDisperse (props s)) = true ->
          validAddress (contractAddress (d20_write (props s))) = true ->
          d20_receivers (props s) = [] -> d20_amounts (props s) = [] ->
          disperseERC20 s
          = call (HandleTx (d20_write (props s)) (disperseToken_call (props s))) s)).
Proof.
  split; intros s.
  - pose proof (disperseETH_run s) as Hrun. cbv zeta in Hrun.
    unfold raises_at_once. rewrite Hrun. clear Hrun.
    unfold disperseETH_invalid, invalid_batch.
    repeat split.
    + intros H. rewrite H. eauto.
    + intros [e He]. destruct (_ || _) eqn:Hinv; [reflexivity|].
      exact (False_ind _ (call_differs _ _ _ He)).
    + intros e He. destruct (_ || _) eqn:Hinv.
      * inversion He as [Hcond]. clear He Hcond.
        destruct (negb (validAddress _)); [exact I|].
        destruct (existsb _ (de_receivers _)); [exact I|].
        destruct (existsb _ (de_amounts _)); simpl; auto.
      * exact (False_ind _ (call_differs _ _ _ He)).
    + intros Hc Hr Ha. rewrite Hc, Hr, Ha. reflexivity.
  - pose proof (disperseERC20_run s) as Hrun. cbv zeta in Hrun.
    unfold raises_at_once. rewrite Hrun. clear Hrun.
    unfold disperseERC20_invalid, invalid_batch.
    repeat split.
    + intros H. rewrite H. eauto.
    + intros [e He]. destruct (_ || _) eqn:Hinv; [reflexivity|].
      exact (False_ind _ (call_differs _ _ _ He)).
    + intros e He. destruct (_ || _) eqn:Hinv.
      * inversion He as [Hcond]. clear He Hcond.
        destruct (negb (validAddress (d20_tokenToDisperse _))); [exact I|].
        destruct (negb (validAddress _)); [exact I|].
        destruct (existsb _ (d20_receivers _)); [exact I|].
        destruct (existsb _ (d20_amounts _)); simpl; auto.
      * exact (False_ind _ (call_differs _ _ _ He)).
    + intros Ht Hc Hr Ha. rewrite Ht, Hc, Hr, Ha. reflexivity.
Qed.

End Disperse.

(** Witness of C2: a dispersal of 1 and 2 wei to two receivers attaches 3. *)
Lemma disperseETH_attaches_sum_witness :
  disperseETH_invalid (E:=Demo.env) Demo.disperse2 = false
  /\ (disperseETH (E:=Demo.env) (Demo.start Demo.env Demo.disperse2 0%nat)
      = call (HandleTx Demo.write0
                (mkCall (Some "0xContract") DISPERSE_ABI "disperseEther"
                   [ArgAddresses [Some "0xA11ce"; Some "0xB0b"]; ArgBigints [1; 2]]
                   (Some (sum_amounts [1; 2])))) (Demo.start Demo.env Demo.disperse2 0%nat)
      /\ sum_amounts [] = 0).
Proof.
  split; [reflexivity|].
  apply (disperseETH_attaches_sum (E:=Demo.env) (Demo.start Demo.env Demo.disperse2 0%nat)).
  reflexivity.
Defined.

(** Counterexample to C3 as stated: an empty batch sent to a valid contract
    address is not refused; [disperseETH] submits it and returns the
    response of [handleTx]. *)
Lemma disperseETH_accepts_empty_batch :
  empty_batch (de_receivers Demo.disperse_none) (de_amounts Demo.disperse_none) = true
  /\ disperseETH (E:=Demo.env) (Demo.start Demo.env Demo.disperse_none 0%nat)
     = (inr (mkResponse true (Some Demo.receipt0) None),
        mkState (E:=Demo.env) 1%nat Demo.disperse_none
          [EvCall (HandleTx Demo.write0
                     (mkCall (Some "0xContract") DISPERSE_ABI "disperseEther"
                        [ArgAddresses []; ArgBigints []] (Some 0)))]).
Proof. split; reflexivity. Qed.

(** ** ERC1155: the filtering loop *)

Section FilterLoop.

(** The loop, started at index [i] with the accumulators [ids] and [amts],
    appends the positive balances of the remaining token ids. *)
Lemma filter_from_spec (rest balanceOfBatch : list Z) :
  forall (i : nat) (ids amts : list Z),
    filter_from i rest balanceOfBatch ids amts
    = (ids ++ map fst (positive_balances rest (drop i balanceOfBatch)),
       amts ++ map snd (positive_balances rest (drop i balanceOfBatch))).
Proof.
  unfold positive_balances.
  induction rest as [|t rest IH]; intros i ids amts; simpl.
  - now rewrite !app_nil_r.
  - destruct (balanceOfBatch !! i) as [b|] eqn:Hb.
    + rewrite (drop_S _ _ _ Hb). simpl.
      destruct (b >? 0); rewrite IH; simpl; [|reflexivity].
      now rewrite <- !app_assoc.
    + rewrite IH.
      apply lookup_ge_None in Hb.
      rewrite !drop_ge by lia.
      destruct rest; reflexivity.
Qed.

Lemma filter_loop_spec (tokenIDs balanceOfBatch : list Z) :
  filter_loop tokenIDs balanceOfBatch
  = (map fst (positive_balances tokenIDs balanceOfBatch),
     map snd (positive_balances tokenIDs balanceOfBatch)).
Proof. unfold filter_loop. now rewrite filter_from_spec. Qed.

Lemma positive_balances_positive (tokenIDs balances : list Z) :
  Forall (fun amount => amount > 0) (map snd (positive_balances tokenIDs balances)).
Proof.
  unfold positive_balances. apply List.Forall_forall. intros a Ha.
  apply in_map_iff in Ha. destruct Ha as [[t b] [<- Hin]].
  apply filter_In in Hin. destruct Hin as [_ Hpos]. simpl in *.
  rewrite Z.gtb_ltb in Hpos. apply Z.ltb_lt in Hpos. lia.
Qed.

Lemma positive_balances_sublist (tokenIDs balances : list Z) :
  sublist (map fst (positive_balances tokenIDs balances)) tokenIDs.
Proof.
  unfold positive_balances. revert balances.
  induction tokenIDs as [|t l IH]; intros [|b balances]; simpl;
    try apply sublist_nil_l.
  destruct (b >? 0); simpl.
  - apply sublist_skip, IH.
  - apply sublist_cons, IH.
Qed.

Lemma filter_loop_is_nil (tokenIDs balanceOfBatch : list Z) :
  (0 <? length (fst (filter_loop tokenIDs balanceOfBatch)))%nat
  = negb (is_nil (positive_balances tokenIDs balanceOfBatch)).
Proof.
  rewrite filter_loop_spec. simpl.
  now destruct (positive_balances tokenIDs balanceOfBatch).
Qed.

End FilterLoop.

(** ** ERC1155: transfer and listing *)

Section ERC1155.
Context {E : Environment}.

(** [transferERC1155] once the addresses passed validation, the provider
    was resolved and the balances were read. *)
Lemma transferERC1155_run (s s1 s2 : State TTransferERC1155) wagmiProvider balanceOfBatch :
  let p := props s in
  validAddress (t1155_receiverAddress p) = true ->
  validAddress (contractAddress (t1155_write p)) = true ->
  call (ToWagmiProvider (connector (t1155_write p))) s = (inr wagmiProvider, s1) ->
  validAddress (wp_address wagmiProvider) = true ->
  call (ReadContract RetBigints wagmiProvider
          (balanceOfBatch_call (contractAddress (t1155_write p)) wagmiProvider
             (t1155_tokenIDs p))) s1 = (inr balanceOfBatch, s2) ->
  transferERC1155 s
  = let filtered := filter_loop (t1155_tokenIDs p) balanceOfBatch in
    if (0 <? length (fst filtered))%nat
    then call (HandleTx (t1155_write p)
                 (mkCall (contractAddress (t1155_write p)) ERC1155_ABI
                    "safeBatchTransferFrom"
                    [ArgAddress (wp_address wagmiProvider);
                     ArgAddress (t1155_receiverAddress p);
                     ArgBigints (fst filtered); ArgBigints (snd filtered);
                     ArgBytes "0x"] None)) s2
    else (inl (AssertionError "No tokens to transfer"), s2).
Proof.
  intros p Hr Hc Hprov Hu Hbal.
  unfold transferERC1155. rewrite bind_getProps. fold p.
  erewrite bind_returns by (apply assertAddress_valid; exact Hr).
  erewrite bind_returns by (apply assertAddress_valid; exact Hc).
  erewrite bind_returns by exact Hprov.
  erewrite bind_returns by (apply assertAddress_valid; exact Hu).
  erewrite bind_returns by exact Hbal.
  cbv zeta. unfold bind, assert.
  now destruct (0 <? length _)%nat.
Qed.

(** A call of [listERC1155] that returns has read some balances and
    returns what the loop keeps of them. *)
Lemma listERC1155_returns (s s' : State TListERC1155) (r : list Z * list Z) :
  listERC1155 s = (inr r, s') ->
  exists balanceOfBatch,
    r = (fst (filter_loop (l1155_tokenIDs (props s)) balanceOfBatch),
         snd (filter_loop (l1155_tokenIDs (props s)) balanceOfBatch)).
Proof.
  unfold listERC1155. rewrite bind_getProps.
  unfold bind, assertAddress.
  destruct (validAddress (contractAddress _)); [|discriminate].
  cbn [ret throw].
  destruct (call (ToWagmiProvider _) s) as [[e|wagmiProvider] s1]; [discriminate|].
  destruct (validAddress (wp_address wagmiProvider)); [|discriminate].
  cbn [ret throw].
  destruct (call (ReadContract _ _ _) s1) as [[e|balanceOfBatch] s2]; [discriminate|].
  intros H. inversion H. now exists balanceOfBatch.
Qed.

Lemma listERC1155_run (s s1 s2 : State TListERC1155) wagmiProvider balanceOfBatch :
  let p := props s in
  validAddress (contractAddress (l1155_write p)) = true ->
  call (ToWagmiProvider (connector (l1155_write p))) s = (inr wagmiProvider, s1) ->
  validAddress (wp_address wagmiProvider) = true ->
  call (ReadContract RetBigints wagmiProvider
          (balanceOfBatch_call (contractAddress (l1155_write p)) wagmiProvider
             (l1155_tokenIDs p))) s1 = (inr balanceOfBatch, s2) ->
  listERC1155 s
  = (inr (fst (filter_loop (l1155_tokenIDs p) balanceOfBatch),
          snd (filter_loop (l1155_tokenIDs p) balanceOfBatch)), s2).
Proof.
  intros p Hc Hprov Hu Hbal.
  unfold listERC1155. rewrite bind_getProps. fold p.
  erewrite bind_returns by (apply assertAddress_valid; exact Hc).
  erewrite bind_returns by exact Hprov.
  erewrite bind_returns by (apply assertAddress_valid; exact Hu).
  erewrite bind_returns by exact Hbal.
  reflexivity.
Qed.

(** C1: the token ids and amounts [transferERC1155] passes to
    [safeBatchTransferFrom] are the input token ids whose balance, as
    answered by [balanceOfBatch], is strictly positive, in input order,
    each with its balance; ids with a zero balance are dropped. *)
Theorem transferERC1155_passes_positive_balances
    (s s1 s2 : State TTransferERC1155) wagmiProvider balanceOfBatch :
  let p := props s in
  let kept := positive_balances (t1155_tokenIDs p) balanceOfBatch in
  validAddress (t1155_receiverAddress p) = true ->
  validAddress (contractAddress (t1155_write p)) = true ->
  call (ToWagmiProvider (connector (t1155_write p))) s = (inr wagmiProvider, s1) ->
  validAddress (wp_address wagmiProvider) = true ->
  call (ReadContract RetBigints wagmiProvider
          (balanceOfBatch_call (contractAddress (t1155_write p)) wagmiProvider
             (t1155_tokenIDs p))) s1 = (inr balanceOfBatch, s2) ->
  transferERC1155 s
  = if is_nil kept
    then (inl (AssertionError "No tokens to transfer"), s2)
    else call (HandleTx (t1155_write p)
                 (mkCall (contractAddress (t1155_write p)) ERC1155_ABI
                    "safeBatchTransferFrom"
                    [ArgAddress (wp_address wagmiProvider);
                     ArgAddress (t1155_receiverAddress p);
                     ArgBigints (map fst kept); ArgBigints (map snd kept);
                     ArgBytes "0x"] None)) s2.
Proof.
  intros p kept Hr Hc Hprov Hu Hbal.
  rewrite (transferERC1155_run s s1 s2 wagmiProvider balanceOfBatch Hr Hc Hprov Hu Hbal).
  cbv zeta. fold p. rewrite filter_loop_is_nil, filter_loop_spec. fold kept.
  now destruct (is_nil kept).
Qed.

(** C10: the two arrays [listERC1155] returns have the same length, every
    returned amount is strictly positive, and the returned token ids are a
    subsequence of the input ids; when no balance is positive it returns
    two empty arrays, where [transferERC1155] raises. *)
Theorem listERC1155_result :
  (forall (s s' : State TListERC1155) ids amounts,
      listERC1155 s = (inr (ids, amounts), s') ->
      length ids = length amounts
      /\ Forall (fun amount => amount > 0) amounts
      /\ sublist ids (l1155_tokenIDs (props s)))
  /\ (forall (s s1 s2 : State TListERC1155) wagmiProvider balanceOfBatch,
      validAddress (contractAddress (l1155_write (props s))) = true ->
      call (ToWagmiProvider (connector (l1155_write (props s)))) s = (inr wagmiProvider, s1) ->
      validAddress (wp_address wagmiProvider) = true ->
      call (ReadContract RetBigints wagmiProvider
              (balanceOfBatch_call (contractAddress (l1155_write (props s))) wagmiProvider
                 (l1155_tokenIDs (props s)))) s1 = (inr balanceOfBatch, s2) ->
      positive_balances (l1155_tokenIDs (props s)) balanceOfBatch = [] ->
      listERC1155 s = (inr ([], []), s2))
  /\ (forall (s s1 s2 : State TTransferERC1155) wagmiProvider balanceOfBatch,
      validAddress (t1155_receiverAddress (props s)) = true ->
      validAddress (contractAddress (t1155_write (props s))) = true ->
      call (ToWagmiProvider (connector (t1155_write (props s)))) s = (inr wagmiProvider, s1) ->
      validAddress (wp_address wagmiProvider) = true ->
      call (ReadContract RetBigints wagmiProvider
              (balanceOfBatch_call (contractAddress (t1155_write (props s))) wagmiProvider
                 (t1155_tokenIDs (props s)))) s1 = (inr balanceOfBatch, s2) ->
      positive_balances (t1155_tokenIDs (props s)) balanceOfBatch = [] ->
      transferERC1155 s = (inl (AssertionError "No tokens to transfer"), s2)).
Proof.
  repeat apply conj.
  - intros s s' ids amounts H.
    apply listERC1155_returns in H. destruct H as [bals H].
    rewrite filter_loop_spec in H. inversion H. clear H. repeat apply conj.
    + now rewrite !length_map.
    + apply positive_balances_positive.
    + apply positive_balances_sublist.
  - intros s s1 s2 wagmiProvider balanceOfBatch Hc Hprov Hu Hbal Hnone.
    rewrite (listERC1155_run s s1 s2 wagmiProvider balanceOfBatch Hc Hprov Hu Hbal).
    cbv zeta. now rewrite filter_loop_spec, Hnone.
  - intros s s1 s2 wagmiProvider balanceOfBatch Hr Hc Hprov Hu Hbal Hnone.
    rewrite (transferERC1155_run s s1 s2 wagmiProvider balanceOfBatch Hr Hc Hprov Hu Hbal).
    cbv zeta. now rewrite filter_loop_is_nil, Hnone.
Qed.

End ERC1155.

(** Witness of C1: of the ids 11, 12, 13, 14 with balances 0, 3, 0, 7 the
    transfer carries 12 and 14 with amounts 3 and 7. *)
Lemma transferERC1155_passes_positive_balances_witness :
  transferERC1155 (E:=Demo.env) (Demo.start Demo.env Demo.transfer1155 0%nat)
  = call (HandleTx Demo.write0
            (mkCall (Some "0xContract") ERC1155_ABI "safeBatchTransferFrom"
               [ArgAddress (Some "0xUser"); ArgAddress (Some "0xReceiver");
                ArgBigints [12; 14]; ArgBigints [3; 7]; ArgBytes "0x"] None))
      (mkState (E:=Demo.env) 2%nat Demo.transfer1155
         [EvCall (ToWagmiProvider (Some "injected"));
          EvCall (ReadContract RetBigints Demo.provider0
                    (balanceOfBatch_call (Some "0xContract") Demo.provider0 Demo.tokens4))]).
Proof.
  apply (transferERC1155_passes_positive_balances (E:=Demo.env)
           (Demo.start Demo.env Demo.transfer1155 0%nat)
           (mkState (E:=Demo.env) 1%nat Demo.transfer1155
              [EvCall (ToWagmiProvider (Some "injected"))])
           _ Demo.provider0 [0; 3; 0; 7]); reflexivity.
Defined.

(** Witness of C10: with the balances 0, 3, 0, 7 the listing returns the ids
    12 and 14 and the amounts 3 and 7; with no positive balance it returns
    two empty arrays, and the transfer raises. *)
Lemma listERC1155_result_witness :
  (length [12; 14] = length [3; 7]
   /\ Forall (fun amount => amount > 0) [3; 7]
   /\ sublist [12; 14] Demo.tokens4)
  /\ listERC1155 (E:=Demo.env_no_balance) (Demo.start Demo.env_no_balance Demo.list1155 0%nat)
     = (inr ([], []),
        mkState (E:=Demo.env_no_balance) 2%nat Demo.list1155
          [EvCall (ToWagmiProvider (Some "injected"));
           EvCall (ReadContract RetBigints Demo.provider0
                     (balanceOfBatch_call (Some "0xContract") Demo.provider0 Demo.tokens4))])
  /\ transferERC1155 (E:=Demo.env_no_balance)
       (Demo.start Demo.env_no_balance Demo.transfer1155 0%nat)
     = (inl (AssertionError "No tokens to transfer"),
        mkState (E:=Demo.env_no_balance) 2%nat Demo.transfer1155
          [EvCall (ToWagmiProvider (Some "injected"));
           EvCall (ReadContract RetBigints Demo.provider0
                     (balanceOfBatch_call (Some "0xContract") Demo.provider0 Demo.tokens4))]).
Proof.
  split; [|split].
  - apply (proj1 (listERC1155_result (E:=Demo.env))
             (Demo.start Demo.env Demo.list1155 0%nat)
             (mkState (E:=Demo.env) 2%nat Demo.list1155
                [EvCall (ToWagmiProvider (Some "injected"));
                 EvCall (ReadContract RetBigints Demo.provider0
                           (balanceOfBatch_call (Some "0xContract") Demo.provider0
                              Demo.tokens4))])).
    reflexivity.
  - apply (proj1 (proj2 (listERC1155_result (E:=Demo.env_no_balance)))
             (Demo.start Demo.env_no_balance Demo.list1155 0%nat)
             (mkState (E:=Demo.env_no_balance) 1%nat Demo.list1155
                [EvCall (ToWagmiProvider (Some "injected"))])
             _ Demo.provider0 [0; 0]); reflexivity.
  - apply (proj2 (proj2 (listERC1155_result (E:=Demo.env_no_balance)))
             (Demo.start Demo.env_no_balance Demo.transfer1155 0%nat)
             (mkState (E:=Demo.env_no_balance) 1%nat Demo.transfer1155
                [EvCall (ToWagmiProvider (Some "injected"))])
             _ Demo.provider0 [0; 0]); reflexivity.
Defined.

(** ** ERC20 allowance *)

Section Allowance.
Context {E : Environment}.

Lemma isApprovedERC20_run (s s1 s2 : State TIsApprovedERC20) wagmiProvider (result : Z) :
  let p := props s in
  call (ToWagmiProvider (ia_connector p)) s = (inr wagmiProvider, s1) ->
  call (ReadContract RetBigint wagmiProvider
          (mkCall (Some (ia_contractAddress p)) erc20ABI "allowance"
             [ArgAddress (wp_address wagmiProvider);
              ArgAddress (Some (ia_spenderAddress p))] None)) s1 = (inr result, s2) ->
  isApprovedERC20 s = (inr (result >=? or_bigint (ia_amount p) MAX_UINT_256), s2).
Proof.
  intros p Hprov Hread.
  unfold isApprovedERC20. rewrite bind_getProps. fold p.
  erewrite bind_returns by exact Hprov.
  erewrite bind_returns by exact Hread.
  unfold ret, or_bigint at 1, toBigInt.
  now destruct (Z.eqb_spec result 0) as [->|].
Qed.

(** C8: when [amount] is omitted or [0n], [isApprovedERC20] compares the
    allowance with [MAX_UINT_256], not with 0: it returns true only when
    the allowance is at least [MAX_UINT_256]; for a positive [amount] it
    returns true exactly when the allowance is at least [amount]. *)
Theorem isApprovedERC20_threshold
    (s s1 s2 : State TIsApprovedERC20) wagmiProvider (allowance : Z) :
  let p := props s in
  call (ToWagmiProvider (ia_connector p)) s = (inr wagmiProvider, s1) ->
  call (ReadContract RetBigint wagmiProvider
          (mkCall (Some (ia_contractAddress p)) erc20ABI "allowance"
             [ArgAddress (wp_address wagmiProvider);
              ArgAddress (Some (ia_spenderAddress p))] None)) s1 = (inr allowance, s2) ->
  exists approved,
    isApprovedERC20 s = (inr approved, s2)
    /\ (ia_amount p = None \/ ia_amount p = Some 0 ->
        (approved = true <-> allowance >= MAX_UINT_256))
    /\ (forall amount, ia_amount p = Some amount -> amount > 0 ->
        (approved = true <-> allowance >= amount)).
Proof.
  intros p Hprov Hread.
  eexists. split; [exact (isApprovedERC20_run s s1 s2 _ _ Hprov Hread)|].
  fold p. split.
  - intros [-> | ->]; simpl; rewrite Z.geb_le; lia.
  - intros amount -> Hpos. simpl.
    destruct (Z.eqb_spec amount 0); [lia|]. rewrite Z.geb_le. lia.
Qed.

End Allowance.

(** Witness of C8: an allowance of 5 covers an amount of 3. *)
Lemma isApprovedERC20_threshold_witness :
  exists approved,
    isApprovedERC20 (E:=Demo.env) (Demo.start Demo.env Demo.isApproved3 0%nat)
    = (inr approved,
       mkState (E:=Demo.env) 2%nat Demo.isApproved3
         [EvCall (ToWagmiProvider (Some "injected"));
          EvCall (ReadContract RetBigint Demo.provider0 Demo.allowance_call)])
    /\ (Some 3 = None \/ Some 3 = Some 0 ->
        (approved = true <-> 5 >= 2 ^ 256 - 1))
    /\ (forall amount, Some 3 = Some amount -> amount > 0 ->
        (approved = true <-> 5 >= amount)).
Proof.
  apply (isApprovedERC20_threshold (E:=Demo.env)
           (Demo.start Demo.env Demo.isApproved3 0%nat)
           (mkState (E:=Demo.env) 1%nat Demo.isApproved3
              [EvCall (ToWagmiProvider (Some "injected"))])
           _ Demo.provider0 5); reflexivity.
Defined.

(** ** Native transfer *)

Section TransferEther.
Context {E : Environment}.

Lemma callStatus_returns {P} h st (s : State P) :
  fst (callStatus h st s) = inr tt ->
  callStatus h st s = (inr tt, snd (callStatus h st s)).
Proof. destruct (callStatus h st s) as [r s']. cbn [fst snd]. now intros ->. Qed.

Lemma callStatus_raises {P} h st (s : State P) e :
  fst (callStatus h st s) = inl e ->
  callStatus h st s = (inl e, snd (callStatus h st s)).
Proof. destruct (callStatus h st s) as [r s']. cbn [fst snd]. now intros ->. Qed.

Lemma callStatus_log {P} h st (s : State P) :
  log (snd (callStatus h st s))
  = log s ++ match h with Some cb => [EvStatus cb st] | None => [] end.
Proof.
  destruct h as [cb|]; simpl; [|now rewrite app_nil_r].
  now destruct (notify cb st (world s)).
Qed.

Lemma try_finally_from {P A} (m m' : M P A) f (s s' : State P) :
  m s = m' s' -> try_finally m f s = try_finally m' f s'.
Proof. intros H. unfold try_finally. now rewrite H. Qed.

(** [transferEther] up to its [try] statement. *)
Lemma transferEther_run (s s1 : State TTransferEther) wagmiProvider :
  let p := props s in
  validAddress (te_receiverAddress p) = true ->
  fst (callStatus (te_statusHandler p) (with_pending defaultTxStatus true) s) = inr tt ->
  call (ToWagmiProvider (te_connector p))
    (snd (callStatus (te_statusHandler p) (with_pending defaultTxStatus true) s))
  = (inr wagmiProvider, s1) ->
  validAddress (wp_address wagmiProvider) = true ->
  transferEther s
  = try_finally
      (try_catch (transferEther_try p wagmiProvider) (transferEther_catch p))
      (transferEther_finally p) s1.
Proof.
  intros p Hr Hpend Hprov Hu.
  unfold transferEther. rewrite bind_getProps. fold p.
  erewrite bind_returns by (apply assertAddress_valid; exact Hr).
  erewrite bind_returns by (apply callStatus_returns; exact Hpend).
  erewrite bind_returns by exact Hprov.
  erewrite bind_returns by (apply assertAddress_valid; exact Hu).
  reflexivity.
Qed.

(** When the [try] block raises, the [catch] block logs the error and calls
    the status callback, and the [finally] block schedules the reset. *)
Lemma transferEther_caught_log (p : TTransferEther) wagmiProvider
    (s s' : State TTransferEther) e :
  transferEther_try p wagmiProvider s = (inl e, s') ->
  log (snd (try_finally
              (try_catch (transferEther_try p wagmiProvider) (transferEther_catch p))
              (transferEther_finally p) s))
  = log s' ++ [EvConsoleError e]
      ++ match te_statusHandler p with
         | Some cb => [EvStatus cb (with_error defaultTxStatus true)]
         | None => []
         end
      ++ [EvSetTimeout 3000 (te_statusHandler p) defaultTxStatus].
Proof.
  intros Htry. unfold try_finally, try_catch. rewrite Htry.
  unfold transferEther_catch, transferEther_finally, bind, emit.
  pose proof (callStatus_log (te_statusHandler p) (with_error defaultTxStatus true)
                (mkState (world s') (props s') (log s' ++ [EvConsoleError e]))) as Hlog.
  destruct (callStatus _ _ _) as [[e'|u] s'']; cbn [ret fst snd log] in *;
    rewrite Hlog; now rewrite <- !app_assoc.
Qed.

(** When the [try] block raises and the status callback returns in the
    [catch] block, the error becomes a failure response, and the [finally]
    block lets it stand. *)
Lemma transferEther_caught (p : TTransferEther) wagmiProvider (s s' : State TTransferEther) e :
  transferEther_try p wagmiProvider s = (inl e, s') ->
  fst (callStatus (te_statusHandler p) (with_error defaultTxStatus true)
         (snd (emit (EvConsoleError e) s'))) = inr tt ->
  let r := try_finally
             (try_catch (transferEther_try p wagmiProvider) (transferEther_catch p))
             (transferEther_finally p) s in
  fst r = inr (mkResponse false None (Some e))
  /\ log (snd r)
     = log s' ++ [EvConsoleError e]
         ++ match te_statusHandler p with
            | Some cb => [EvStatus cb (with_error defaultTxStatus true)]
            | None => []
            end
         ++ [EvSetTimeout 3000 (te_statusHandler p) defaultTxStatus].
Proof.
  intros Htry Hcb r. split; [|exact (transferEther_caught_log p wagmiProvider s s' e Htry)].
  unfold r, try_finally, try_catch. rewrite Htry.
  unfold transferEther_catch, transferEther_finally, bind.
  change (emit (EvConsoleError e) s')
    with (inr (A:=exn) tt, snd (emit (P:=TTransferEther) (EvConsoleError e) s')).
  cbn iota beta. rewrite (callStatus_returns _ _ _ Hcb). reflexivity.
Qed.




Lemma bind_from {P A B} (m m' : M P A) (k : A -> M P B) (s s' : State P) :
  m s = m' s' -> bind m k s = bind m' k s'.
Proof. intros H. unfold bind. now rewrite H. Qed.

Lemma try_catch_from {P A} (m m' : M P A) h (s s' : State P) :
  m s = m' s' -> try_catch m h s = try_catch m' h s'.
Proof. intros H. unfold try_catch. now rewrite H. Qed.

(** With [shouldAdjustForGas], [prepareConfig] ends in a second
    [prepareSendTransaction], for the amount less the gas allowance. *)
Lemma prepareConfig_adjusted (p : TTransferEther) wagmiProvider
    (s s1 s2 : State TTransferEther) config (fee : Z) :
  te_shouldAdjustForGas p = Some true ->
  call (PrepareSendTransaction wagmiProvider (te_receiverAddress p) (te_amount p)) s
  = (inr config, s1) ->
  (falsy_bigint (maxPriorityFeePerGas config) = false
   /\ maxPriorityFeePerGas config = Some fee /\ s2 = s1
   \/ falsy_bigint (maxPriorityFeePerGas config) = true
      /\ exists client s',
          call (GetPublicClient (chainId wagmiProvider)) s1 = (inr client, s')
          /\ call (GetGasPrice client) s' = (inr fee, s2)) ->
  prepareConfig p wagmiProvider s
  = call (PrepareSendTransaction wagmiProvider (te_receiverAddress p)
            (te_amount p - (toBigInt (gas config) * fee + 21000))) s2.
Proof.
  intros Hadj Hprep Hfee. unfold prepareConfig.
  erewrite bind_returns by exact Hprep. rewrite Hadj. unfold adjustForGas.
  destruct Hfee as [(Hf & Hmp & ->) | (Hf & client & s' & Hclient & Hgas)]; rewrite Hf.
  - unfold bind, ret. now rewrite Hmp.
  - unfold bind. rewrite Hclient, Hgas. reflexivity.
Qed.



(** C9: with [shouldAdjustForGas], the transaction [transferEther]
    finally prepares, and then sends, has for value the requested amount
    less (estimated gas times [maxPriorityFeePerGas], plus 21000); the
    21000 is added as it is, not multiplied by a gas price.  The priority
    fee is the one of the first prepared request, or the gas price of the
    chain when that request has none.  The request is reached when the
    addresses are valid, the status callback returned from the pending
    status and the provider was resolved. *)
Theorem transferEther_adjusted_value
    (s s1 s2 s3 : State TTransferEther) wagmiProvider config (fee : Z) :
  let p := props s in
  te_shouldAdjustForGas p = Some true ->
  validAddress (te_receiverAddress p) = true ->
  fst (callStatus (te_statusHandler p) (with_pending defaultTxStatus true) s) = inr tt ->
  call (ToWagmiProvider (te_connector p))
    (snd (callStatus (te_statusHandler p) (with_pending defaultTxStatus true) s))
  = (inr wagmiProvider, s1) ->
  validAddress (wp_address wagmiProvider) = true ->
  call (PrepareSendTransaction wagmiProvider (te_receiverAddress p) (te_amount p)) s1
  = (inr config, s2) ->
  (falsy_bigint (maxPriorityFeePerGas config) = false
   /\ maxPriorityFeePerGas config = Some fee /\ s3 = s2
   \/ falsy_bigint (maxPriorityFeePerGas config) = true
      /\ exists client s',
          call (GetPublicClient (chainId wagmiProvider)) s2 = (inr client, s')
          /\ call (GetGasPrice client) s' = (inr fee, s3)) ->
  transferEther s
  = try_finally
      (try_catch
         (let* adjusted :=
            call (PrepareSendTransaction wagmiProvider (te_receiverAddress p)
                    (te_amount p - (toBigInt (gas config) * fee + 21000))) in
          sendAndConfirm p wagmiProvider adjusted)
         (transferEther_catch p))
      (transferEther_finally p) s3.
Proof.
  intros p Hadj Hr Hpend Hprov Hu Hprep Hfee.
  rewrite (transferEther_run s s1 wagmiProvider Hr Hpend Hprov Hu). fold p.
  apply try_finally_from, try_catch_from. unfold transferEther_try.
  apply bind_from.
  exact (prepareConfig_adjusted p wagmiProvider s1 s2 s3 config fee Hadj Hprep Hfee).
Qed.

End TransferEther.

(** ** What every helper leaves untouched, and what it may call *)

Section Stable.
Context {E : Environment} {P : Type}.
Variable R : State P -> State P -> Prop.
Hypothesis R_refl : forall s, R s s.
Hypothesis R_trans : forall s1 s2 s3, R s1 s2 -> R s2 s3 -> R s1 s3.

Lemma stable_ret {A} (a : A) : stable R (ret a).
Proof. intros s. apply R_refl. Qed.

Lemma stable_throw {A} e : stable R (throw (A:=A) e).
Proof. intros s. apply R_refl. Qed.

Lemma stable_getProps : stable R getProps.
Proof. intros s. apply R_refl. Qed.

Lemma stable_assert cond msg : stable R (assert cond msg).
Proof. intros s. unfold assert. destruct cond; apply R_refl. Qed.

Lemma stable_assertAddress addr label : stable R (assertAddress addr label).
Proof. intros s. unfold assertAddress. destruct (validAddress addr); apply R_refl. Qed.

Lemma stable_bind {A B} (m : M P A) (k : A -> M P B) :
  stable R m -> (forall a, stable R (k a)) -> stable R (bind m k).
Proof.
  intros Hm Hk s. unfold bind. specialize (Hm s).
  destruct (m s) as [[e|a] s']; simpl in *; [exact Hm|].
  eapply R_trans; [exact Hm|apply Hk].
Qed.

Lemma stable_try_catch {A} (m : M P A) h :
  stable R m -> (forall e, stable R (h e)) -> stable R (try_catch m h).
Proof.
  intros Hm Hh s. unfold try_catch. specialize (Hm s).
  destruct (m s) as [[e|a] s']; simpl in *; [|exact Hm].
  eapply R_trans; [exact Hm|apply Hh].
Qed.

Lemma stable_try_finally {A} (m : M P A) f :
  stable R m -> stable R f -> stable R (try_finally m f).
Proof.
  intros Hm Hf s. unfold try_finally. specialize (Hm s).
  destruct (m s) as [r s']. specialize (Hf s').
  destruct (f s') as [[e|u] s'']; simpl in *; eapply R_trans; eassumption.
Qed.

Lemma stable_for_of {A} (l : list A) body :
  (forall x, stable R (body x)) -> stable R (for_of l body).
Proof.
  intros Hbody. induction l as [|x l IH]; simpl.
  - apply stable_ret.
  - apply stable_bind; [apply Hbody|intros _; exact IH].
Qed.

End Stable.

Section Frame.
Context {E : Environment} {P : Type}.

Lemma same_props_refl (s : State P) : same_props s s.
Proof. reflexivity. Qed.

Lemma same_props_trans (s1 s2 s3 : State P) :
  same_props s1 s2 -> same_props s2 s3 -> same_props s1 s3.
Proof. unfold same_props. congruence. Qed.

Lemma same_props_call {X} (c : ext X) : stable (P:=P) same_props (call c).
Proof. intros s. unfold call. now destruct (oracle X c (world s)). Qed.

Lemma same_props_emit ev : stable (P:=P) same_props (emit ev).
Proof. intros s. reflexivity. Qed.

Lemma same_props_callStatus h st : stable (P:=P) same_props (callStatus h st).
Proof.
  intros s. destruct h as [cb|]; [|reflexivity].
  unfold callStatus. now destruct (notify cb st (world s)).
Qed.

Lemma log_extends_refl names (s : State P) : log_extends names s s.
Proof. exists []. split; [now rewrite app_nil_r|intros ev n []]. Qed.

Lemma log_extends_trans names (s1 s2 s3 : State P) :
  log_extends names s1 s2 -> log_extends names s2 s3 -> log_extends names s1 s3.
Proof.
  intros (l1 & H1 & Hn1) (l2 & H2 & Hn2). exists (l1 ++ l2). split.
  - now rewrite H2, H1, app_assoc.
  - intros ev n Hin. apply in_app_or in Hin. destruct Hin; eauto.
Qed.

Lemma log_extends_event names (s : State P) w p ev :
  (forall n, contract_function ev = Some n -> In n names) ->
  log_extends names s (mkState w p (log s ++ [ev])).
Proof.
  intros Hev. exists [ev]. split; [reflexivity|].
  intros ev' n [<-|[]]. apply Hev.
Qed.

Lemma log_extends_call names {X} (c : ext X) :
  (forall n, contract_function (EvCall c) = Some n -> In n names) ->
  stable (P:=P) (log_extends names) (call c).
Proof.
  intros Hc s. unfold call. destruct (oracle X c (world s)) as [r w'].
  now apply log_extends_event.
Qed.

Lemma log_extends_emit names ev :
  contract_function ev = None -> stable (P:=P) (log_extends names) (emit ev).
Proof.
  intros Hev s. apply log_extends_event. intros n Hn. congruence.
Qed.

Lemma log_extends_callStatus names h st :
  stable (P:=P) (log_extends names) (callStatus h st).
Proof.
  intros s. destruct h as [cb|]; [|apply log_extends_refl].
  unfold callStatus. destruct (notify cb st (world s)) as [r w'].
  apply log_extends_event. intros n Hn. discriminate.
Qed.

Lemma log_extends_setProps names p : stable (P:=P) (log_extends names) (setProps p).
Proof. intros s. exists []. split; [simpl; now rewrite app_nil_r|intros ev n []]. Qed.

End Frame.

Create HintDb actions.
#[local] Hint Resolve same_props_call same_props_emit same_props_callStatus
  log_extends_callStatus log_extends_setProps : actions.

(** The relation at hand is reflexive and transitive. *)
Ltac rel_facts :=
  first [ exact same_props_refl | exact same_props_trans
        | exact (log_extends_refl _) | exact (log_extends_trans _) ].

(** One step through the body of a helper, for a relation that is reflexive
    and transitive. *)
Ltac stable_step :=
  lazymatch goal with
  | |- stable _ (bind _ _) => apply stable_bind; [rel_facts | | intros ?]
  | |- stable _ (ret _) => apply stable_ret; rel_facts
  | |- stable _ (throw _) => apply stable_throw; rel_facts
  | |- stable _ getProps => apply stable_getProps; rel_facts
  | |- stable _ (assert _ _) => apply stable_assert; rel_facts
  | |- stable _ (assertAddress _ _) => apply stable_assertAddress; rel_facts
  | |- stable _ (try_catch _ _) => apply stable_try_catch; [rel_facts | | intros ?]
  | |- stable _ (try_finally _ _) => apply stable_try_finally; [rel_facts | | ]
  | |- stable _ (for_of _ _) => apply stable_for_of; [rel_facts | rel_facts | intros ?]
  | |- stable _ (match ?x with _ => _ end) => destruct x
  | |- stable _ (let _ := _ in _) => cbv zeta
  end.

(** A logged call: not a contract call, or one of a listed function. *)
Ltac logged_call :=
  apply log_extends_call; simpl; intros ? Hname;
  first [discriminate Hname
        | injection Hname as <-; unfold invoked_functions, listed_functions; simpl; auto 20].

Ltac unfold_helpers :=
  unfold transferEther_try, transferEther_catch, transferEther_finally, prepareConfig,
    sendAndConfirm, adjustForGas.

Ltac frame_helper :=
  unfold preserves_props; unfold_helpers;
  repeat first [stable_step | solve [auto with actions]].

Ltac calls_helper :=
  unfold only_invokes; unfold_helpers;
  repeat first [stable_step | solve [auto with actions] | logged_call
               | apply log_extends_emit; reflexivity].

Section Helpers.
Context {E : Environment}.

Lemma approveERC20_props (s : State TApproveERC20) :
  props (snd (approveERC20 s))
  = if validAddress (ap_spenderAddress (props s))
       && validAddress (contractAddress (ap_write (props s)))
    then set_onTrySomethingElse (props s) (Some AlternateApprove)
    else props s.
Proof.
  unfold approveERC20. rewrite bind_getProps.
  destruct (validAddress (ap_spenderAddress (props s))) eqn:Hs; cbn [andb];
    [|now erewrite bind_raises by now apply assertAddress_invalid].
  erewrite bind_returns by now apply assertAddress_valid.
  destruct (validAddress (contractAddress (ap_write (props s)))) eqn:Hc;
    [|now erewrite bind_raises by now apply assertAddress_invalid].
  erewrite bind_returns by now apply assertAddress_valid.
  unfold bind, setProps, getProps, call. cbn [props world log].
  now destruct (oracle _ _ _).
Qed.

(** C6 (amended): every helper but [approveERC20] leaves the request
    object it was given as it was; [approveERC20] writes its
    [onTrySomethingElse] field, once the two addresses passed validation,
    and no other field. *)
Theorem helpers_frame :
  preserves_props isApprovedERC20
  /\ preserves_props approveAllERC721
  /\ preserves_props transferERC721
  /\ preserves_props batchTransferERC721
  /\ preserves_props transferERC1155
  /\ preserves_props listERC1155
  /\ preserves_props transferERC20
  /\ preserves_props transferEther
  /\ preserves_props disperseETH
  /\ preserves_props disperseERC20
  /\ preserves_props approveERC20_onTrySomethingElse
  /\ forall s : State TApproveERC20,
      let p := props s in
      let p' := props (snd (approveERC20 s)) in
      ap_spenderAddress p' = ap_spenderAddress p
      /\ ap_amount p' = ap_amount p
      /\ connector (ap_write p') = connector (ap_write p)
      /\ contractAddress (ap_write p') = contractAddress (ap_write p)
      /\ statusHandler (ap_write p') = statusHandler (ap_write p)
      /\ onTrySomethingElse (ap_write p')
         = if validAddress (ap_spenderAddress p)
              && validAddress (contractAddress (ap_write p))
           then Some AlternateApprove
           else onTrySomethingElse (ap_write p).
Proof.
  repeat apply conj; [..|intros s; repeat apply conj].
  - unfold isApprovedERC20. frame_helper.
  - unfold approveAllERC721. frame_helper.
  - unfold transferERC721. frame_helper.
  - unfold batchTransferERC721. frame_helper.
  - unfold transferERC1155. frame_helper.
  - unfold listERC1155. frame_helper.
  - unfold transferERC20. frame_helper.
  - unfold transferEther. frame_helper.
  - unfold disperseETH. frame_helper.
  - unfold disperseERC20. frame_helper.
  - unfold approveERC20_onTrySomethingElse. frame_helper.
  - rewrite approveERC20_props. now destruct (_ && _).
  - rewrite approveERC20_props. now destruct (_ && _).
  - rewrite approveERC20_props. now destruct (_ && _).
  - rewrite approveERC20_props. now destruct (_ && _).
  - rewrite approveERC20_props. now destruct (_ && _).
  - rewrite approveERC20_props. now destruct (_ && _).
Qed.

Lemma helpers_only_invoke_ten : helpers_only_invoke invoked_functions.
Proof.
  repeat apply conj.
  - unfold isApprovedERC20. calls_helper.
  - unfold approveERC20. calls_helper.
  - unfold approveERC20_onTrySomethingElse. calls_helper.
  - unfold approveAllERC721. calls_helper.
  - unfold transferERC721. calls_helper.
  - unfold batchTransferERC721. calls_helper.
  - unfold transferERC1155. calls_helper.
  - unfold listERC1155. calls_helper.
  - unfold transferERC20. calls_helper.
  - unfold transferEther. calls_helper.
  - unfold disperseETH. calls_helper.
  - unfold disperseERC20. calls_helper.
Qed.

End Helpers.

(** The contract call among the events of a run that invokes the function
    asked for. *)
Ltac find_invocation :=
  lazymatch goal with
  | |- invokes ?n ?m ?s =>
      let l := eval vm_compute in (emitted m s) in
      let rec go l :=
        lazymatch l with
        | ?ev :: ?l' =>
            first [ exists ev; split; [vm_compute; auto 10 | reflexivity] | go l' ]
        end in
      go l
  end.

(** C4 (amended): the contract functions the helpers invoke are
    [allowance], which [isApprovedERC20] reads, and the nine functions the
    specification lists: no helper issues a contract call of another
    function, and each of the ten is invoked by a helper. *)
Theorem helpers_invoke_exactly :
  (forall E : Environment, helpers_only_invoke (E:=E) invoked_functions)
  /\ Demo.each_function_invoked.
Proof.
  split; [intros E; apply helpers_only_invoke_ten|].
  unfold Demo.each_function_invoked. repeat apply conj; find_invocation.
Qed.

(** Counterexample to C4 as stated: [isApprovedERC20] invokes [allowance],
    which is not among the nine listed functions. *)
Lemma isApprovedERC20_invokes_allowance :
  invokes (E:=Demo.env) "allowance" isApprovedERC20 (Demo.start Demo.env Demo.isApproved3 0%nat)
  /\ ~ In "allowance" listed_functions
  /\ ~ helpers_only_invoke (E:=Demo.env) listed_functions.
Proof.
  assert (Hout : ~ In "allowance" listed_functions).
  { unfold listed_functions. simpl. intuition discriminate. }
  repeat apply conj.
  - find_invocation.
  - exact Hout.
  - intros [H _]. apply Hout.
    destruct (H (Demo.start Demo.env Demo.isApproved3 0%nat)) as (l & Hlog & Hnames).
    apply (Hnames (EvCall (ReadContract RetBigint Demo.provider0 Demo.allowance_call)));
      [|reflexivity].
    vm_compute in Hlog. subst l. right. left. reflexivity.
Qed.

(** Counterexample to C6 as stated: [approveERC20] writes the
    [onTrySomethingElse] field of the request object it was given. *)
Lemma approveERC20_writes_props :
  onTrySomethingElse (ap_write Demo.approve) = None
  /\ onTrySomethingElse
       (ap_write (props (snd (approveERC20 (E:=Demo.env)
                                (Demo.start Demo.env Demo.approve 0%nat)))))
     = Some AlternateApprove
  /\ ~ preserves_props (E:=Demo.env) approveERC20.
Proof.
  repeat apply conj; [reflexivity|reflexivity|].
  intros H. specialize (H (Demo.start Demo.env Demo.approve 0%nat)).
  unfold same_props in H. vm_compute in H. discriminate H.
Qed.

(** Witness of C9: for 1000000 wei, an estimate of 21000 gas and a gas price
    of 10, the request finally prepared is for 1000000 - (21000 * 10 + 21000)
    wei. *)
Lemma transferEther_adjusted_value_witness :
  transferEther (E:=Demo.env) (Demo.start Demo.env Demo.ether 0%nat)
  = try_finally
      (try_catch
         (let* adjusted :=
            call (PrepareSendTransaction Demo.provider0 (Some "0xReceiver")
                    (1000000 - (21000 * 10 + 21000))) in
          sendAndConfirm Demo.ether Demo.provider0 adjusted)
         (transferEther_catch Demo.ether))
      (transferEther_finally Demo.ether) (Demo.state_at Demo.env 0%nat 3).
Proof.
  apply (transferEther_adjusted_value (E:=Demo.env) (Demo.start Demo.env Demo.ether 0%nat)
           (Demo.state_at Demo.env 0%nat 0) (Demo.state_at Demo.env 0%nat 1)
           (Demo.state_at Demo.env 0%nat 3) Demo.provider0 Demo.config0 10);
    try reflexivity.
  right. split; [reflexivity|].
  exists 1, (Demo.state_at Demo.env 0%nat 2). split; reflexivity.
Defined.



(** Witness of C3: a dispersal with an amount of 0 is refused at once. *)
Lemma disperse_raises_iff_invalid_witness :
  exists e,
    raises_at_once (E:=Demo.env) disperseETH (Demo.start Demo.env Demo.disperse_zero 0%nat) e.
Proof.
  apply (proj1 (proj1 (proj1 (disperse_raises_iff_invalid (E:=Demo.env))
                         (Demo.start Demo.env Demo.disperse_zero 0%nat)))).
  reflexivity.
Defined.

(** ** How many transactions a helper submits *)

Section Submissions.
Context {E : Environment} {P : Type}.

Lemma submissions_app (l1 l2 : list event) :
  submissions (l1 ++ l2) = (submissions l1 + submissions l2)%nat.
Proof. unfold submissions. now rewrite List.filter_app, length_app. Qed.

Lemma submissions_single (ev : event) :
  submissions [ev] = if is_submission ev then 1%nat else 0%nat.
Proof. unfold submissions. cbn [List.filter]. now destruct (is_submission ev). Qed.

Lemma sam_quiet {A} (m : M P A) :
  (forall s, log (snd (m s)) = log s) -> submits_at_most 0 m.
Proof.
  intros H s. exists []. split; [now rewrite H, app_nil_r|]. reflexivity.
Qed.

Lemma sam_ret {A} (a : A) : submits_at_most (P:=P) 0 (ret a).
Proof. now apply sam_quiet. Qed.

Lemma sam_throw {A} e : submits_at_most (P:=P) 0 (throw (A:=A) e).
Proof. now apply sam_quiet. Qed.

Lemma sam_getProps : submits_at_most (P:=P) 0 getProps.
Proof. now apply sam_quiet. Qed.

Lemma sam_setProps p : submits_at_most (P:=P) 0 (setProps p).
Proof. now apply sam_quiet. Qed.

Lemma sam_assert cond msg : submits_at_most (P:=P) 0 (assert cond msg).
Proof. apply sam_quiet. intros s. unfold assert. now destruct cond. Qed.

Lemma sam_assertAddress addr label : submits_at_most (P:=P) 0 (assertAddress addr label).
Proof.
  apply sam_quiet. intros s. unfold assertAddress. now destruct (validAddress addr).
Qed.

Lemma sam_event {A} (m : M P A) ev n :
  (forall s, log (snd (m s)) = log s ++ [ev]) ->
  (submissions [ev] <= n)%nat -> submits_at_most n m.
Proof. intros H Hn s. exists [ev]. now split. Qed.

Lemma sam_call_quiet {X} (c : ext X) :
  is_submission (EvCall c) = false -> submits_at_most (P:=P) 0 (call c).
Proof.
  intros Hc. apply (sam_event _ (EvCall c)).
  - intros s. unfold call. now destruct (oracle X c (world s)).
  - now rewrite submissions_single, Hc.
Qed.

Lemma sam_call {X} (c : ext X) : submits_at_most (P:=P) 1 (call c).
Proof.
  apply (sam_event _ (EvCall c)).
  - intros s. unfold call. now destruct (oracle X c (world s)).
  - rewrite submissions_single. destruct (is_submission (EvCall c)); lia.
Qed.

Lemma sam_emit ev : is_submission ev = false -> submits_at_most (P:=P) 0 (emit ev).
Proof.
  intros Hev. apply (sam_event _ ev); [reflexivity|].
  now rewrite submissions_single, Hev.
Qed.

Lemma sam_callStatus h st : submits_at_most (P:=P) 0 (callStatus h st).
Proof.
  destruct h as [cb|]; [|apply sam_ret].
  apply (sam_event _ (EvStatus cb st)); [|reflexivity].
  intros s. unfold callStatus. now destruct (notify cb st (world s)).
Qed.

Lemma sam_weaken {A} (m : M P A) n n' :
  (n <= n')%nat -> submits_at_most n m -> submits_at_most n' m.
Proof. intros Hn Hm s. destruct (Hm s) as (l & Hl & Hc). exists l. split; [exact Hl|lia]. Qed.

Lemma sam_bind {A B} (m : M P A) (k : A -> M P B) a b :
  submits_at_most a m -> (forall x, submits_at_most b (k x)) ->
  submits_at_most (a + b) (bind m k).
Proof.
  intros Hm Hk s. unfold bind. destruct (Hm s) as (l1 & Hl1 & Hc1).
  destruct (m s) as [[e|x] s1]; simpl in *.
  - exists l1. split; [exact Hl1|lia].
  - destruct (Hk x s1) as (l2 & Hl2 & Hc2). exists (l1 ++ l2). split.
    + now rewrite Hl2, Hl1, app_assoc.
    + rewrite submissions_app. lia.
Qed.

Lemma sam_bind_quiet {A B} (m : M P A) (k : A -> M P B) n :
  submits_at_most 0 m -> (forall x, submits_at_most n (k x)) ->
  submits_at_most n (bind m k).
Proof. intros Hm Hk. exact (sam_bind m k 0 n Hm Hk). Qed.

Lemma sam_bind_then_quiet {A B} (m : M P A) (k : A -> M P B) n :
  submits_at_most n m -> (forall x, submits_at_most 0 (k x)) ->
  submits_at_most n (bind m k).
Proof.
  intros Hm Hk. apply (sam_weaken _ (n + 0)); [lia|]. now apply sam_bind.
Qed.

Lemma sam_try_catch {A} (m : M P A) h n :
  submits_at_most n m -> (forall e, submits_at_most 0 (h e)) ->
  submits_at_most n (try_catch m h).
Proof.
  intros Hm Hh s. unfold try_catch. destruct (Hm s) as (l1 & Hl1 & Hc1).
  destruct (m s) as [[e|x] s1]; simpl in *.
  - destruct (Hh e s1) as (l2 & Hl2 & Hc2). exists (l1 ++ l2). split.
    + now rewrite Hl2, Hl1, app_assoc.
    + rewrite submissions_app. lia.
  - exists l1. now split.
Qed.

Lemma sam_try_finally {A} (m : M P A) f n :
  submits_at_most n m -> submits_at_most 0 f -> submits_at_most n (try_finally m f).
Proof.
  intros Hm Hf s. unfold try_finally. destruct (Hm s) as (l1 & Hl1 & Hc1).
  destruct (m s) as [r s1]. destruct (Hf s1) as (l2 & Hl2 & Hc2).
  exists (l1 ++ l2). split.
  - destruct (f s1) as [[e|u] s2]; simpl in *; now rewrite Hl2, Hl1, app_assoc.
  - rewrite submissions_app. lia.
Qed.

Lemma sam_for_of {A} (l : list A) body :
  (forall x, submits_at_most 0 (body x)) -> submits_at_most (P:=P) 0 (for_of l body).
Proof.
  intros Hbody. induction l as [|x l IH]; simpl.
  - apply sam_ret.
  - apply sam_bind_quiet; [apply Hbody|intros _; exact IH].
Qed.

End Submissions.

(** A part of a helper that submits nothing. *)
Ltac quiet_part :=
  lazymatch goal with
  | |- submits_at_most 0 (bind _ _) => apply sam_bind_quiet; [quiet_part | intros ?; quiet_part]
  | |- submits_at_most 0 (ret _) => apply sam_ret
  | |- submits_at_most 0 (throw _) => apply sam_throw
  | |- submits_at_most 0 getProps => apply sam_getProps
  | |- submits_at_most 0 (setProps _) => apply sam_setProps
  | |- submits_at_most 0 (assert _ _) => apply sam_assert
  | |- submits_at_most 0 (assertAddress _ _) => apply sam_assertAddress
  | |- submits_at_most 0 (callStatus _ _) => apply sam_callStatus
  | |- submits_at_most 0 (emit _) => apply sam_emit; reflexivity
  | |- submits_at_most 0 (call _) => apply sam_call_quiet; reflexivity
  | |- submits_at_most 0 (for_of _ _) => apply sam_for_of; intros ?; quiet_part
  | |- submits_at_most 0 (match ?x with _ => _ end) => destruct x; quiet_part
  | |- submits_at_most 0 (let _ := _ in _) => cbv zeta; quiet_part
  end.

(** A part of a helper that submits at most once. *)
Ltac single_submission :=
  lazymatch goal with
  | |- submits_at_most 1 (bind _ _) =>
      first [ apply sam_bind_quiet; [solve [quiet_part] | intros ?; single_submission]
            | apply sam_bind_then_quiet; [single_submission | intros ?; solve [quiet_part]] ]
  | |- submits_at_most 1 (call _) => apply sam_call
  | |- submits_at_most 1 (try_catch _ _) =>
      apply sam_try_catch; [single_submission | intros ?; solve [quiet_part]]
  | |- submits_at_most 1 (try_finally _ _) =>
      apply sam_try_finally; [single_submission | solve [quiet_part]]
  | |- submits_at_most 1 (match ?x with _ => _ end) => destruct x; single_submission
  | |- submits_at_most 1 (let _ := _ in _) => cbv zeta; single_submission
  | |- submits_at_most 1 _ => apply (sam_weaken _ 0); [lia | quiet_part]
  end.

Section SubmissionCount.
Context {E : Environment}.

(** X7: the two view helpers never hand a transaction to the wallet:
    whatever the chain answers, [isApprovedERC20] and [listERC1155] log no
    [handleTx] and no [sendTransaction]. *)
Theorem view_helpers_submit_nothing :
  submits_at_most 0 isApprovedERC20 /\ submits_at_most 0 listERC1155.
Proof.
  split.
  - unfold isApprovedERC20. quiet_part.
  - unfold listERC1155. quiet_part.
Qed.

(** X8: a call of a write helper hands at most one transaction to the
    wallet, whatever the environment answers; so does the fallback closure
    of [approveERC20]. *)
Theorem write_helpers_submit_once :
  submits_at_most 1 approveERC20
  /\ submits_at_most 1 approveERC20_onTrySomethingElse
  /\ submits_at_most 1 approveAllERC721
  /\ submits_at_most 1 transferERC721
  /\ submits_at_most 1 batchTransferERC721
  /\ submits_at_most 1 transferERC1155
  /\ submits_at_most 1 transferERC20
  /\ submits_at_most 1 transferEther
  /\ submits_at_most 1 disperseETH
  /\ submits_at_most 1 disperseERC20.
Proof.
  repeat apply conj.
  - unfold approveERC20. single_submission.
  - unfold approveERC20_onTrySomethingElse. single_submission.
  - unfold approveAllERC721. single_submission.
  - unfold transferERC721. single_submission.
  - unfold batchTransferERC721. single_submission.
  - unfold transferERC1155. single_submission.
  - unfold transferERC20. single_submission.
  - unfold transferEther, transferEther_try, transferEther_catch, transferEther_finally,
      prepareConfig, sendAndConfirm, adjustForGas. single_submission.
  - unfold disperseETH. single_submission.
  - unfold disperseERC20. single_submission.
Qed.

End SubmissionCount.

(** ** Validation, then one call: the approval and transfer helpers *)

Section Delegation.
Context {E : Environment}.

Lemma call_log {P X} (c : ext X) (s s' : State P) r :
  call c s = (r, s') -> log s' = log s ++ [EvCall c] /\ props s' = props s.
Proof.
  unfold call. destruct (oracle X c (world s)) as [r0 w'].
  intros H. inversion H. now split.
Qed.

Lemma emitted_app {P A} (m : M P A) (s : State P) l :
  log (snd (m s)) = log s ++ l -> emitted m s = l.
Proof. intros H. unfold emitted. rewrite H. apply drop_app_length. Qed.

(** X1: [approveERC20] raises at once when [spenderAddress] or
    [contractAddress] is invalid.  Otherwise it is one [handleTx] call of
    [approve(spender, amount)] on the ERC20 ABI, and the request handed
    over carries the closure of [approveERC20] as [onTrySomethingElse]:
    a fallback the caller had put there is replaced.  The amount is not
    checked. *)
Theorem approveERC20_replaces_fallback (s : State TApproveERC20) :
  let p := props s in
  approveERC20 s
  = if validAddress (ap_spenderAddress p) && validAddress (contractAddress (ap_write p))
    then call (HandleTx
                 (mkWrite (connector (ap_write p)) (contractAddress (ap_write p))
                    (statusHandler (ap_write p)) (Some AlternateApprove))
                 (mkCall (contractAddress (ap_write p)) erc20ABI "approve"
                    [ArgAddress (ap_spenderAddress p); ArgBigint (ap_amount p)] None))
           (mkState (world s) (set_onTrySomethingElse p (Some AlternateApprove)) (log s))
    else (inl (InvalidAddress
                 (if validAddress (ap_spenderAddress p) then None
                  else Some "spenderAddress")), s).
Proof.
  intros p. unfold approveERC20. rewrite bind_getProps. fold p.
  destruct (validAddress (ap_spenderAddress p)) eqn:Hs; cbn [andb];
    [|now erewrite bind_raises by now apply assertAddress_invalid].
  erewrite bind_returns by now apply assertAddress_valid.
  destruct (validAddress (contractAddress (ap_write p))) eqn:Hc;
    [|now erewrite bind_raises by now apply assertAddress_invalid].
  erewrite bind_returns by now apply assertAddress_valid.
  reflexivity.
Qed.

(** X2: after [approveERC20] went through validation, the closure it left
    in [props.onTrySomethingElse] submits the same call again, with the same
    contract address and arguments, on the alternate approve ABI; the
    request it hands over still carries the closure. *)
Theorem approveERC20_fallback_retries (s : State TApproveERC20) :
  let p := props s in
  let s1 := snd (approveERC20 s) in
  validAddress (ap_spenderAddress p) = true ->
  validAddress (contractAddress (ap_write p)) = true ->
  approveERC20_onTrySomethingElse s1
  = call (HandleTx
            (mkWrite (connector (ap_write p)) (contractAddress (ap_write p))
               (statusHandler (ap_write p)) (Some AlternateApprove))
            (mkCall (contractAddress (ap_write p)) ALTERNATE_ERC20_APPROVE_ABI "approve"
               [ArgAddress (ap_spenderAddress p); ArgBigint (ap_amount p)] None)) s1.
Proof.
  intros p s1 Hs Hc. unfold approveERC20_onTrySomethingElse.
  rewrite bind_getProps. unfold s1. rewrite approveERC20_props. fold p.
  rewrite Hs, Hc. cbn [andb set_onTrySomethingElse ap_spenderAddress ap_write ap_amount
                        contractAddress].
  now erewrite bind_returns by now apply assertAddress_valid.
Qed.

(** X3: [transferERC20] raises at once exactly when [receiverAddress] or
    [contractAddress] is invalid; otherwise it is one [handleTx] call of
    [transfer(receiver, amount)], whose result or exception is its own.
    The amount is not checked. *)
Theorem transferERC20_delegates (s : State TTransferERC20) :
  let p := props s in
  let valid := validAddress (t20_receiverAddress p)
               && validAddress (contractAddress (t20_write p)) in
  (valid = false <-> exists e, raises_at_once transferERC20 s e)
  /\ (valid = true ->
      transferERC20 s
      = call (HandleTx (t20_write p)
                (mkCall (contractAddress (t20_write p)) erc20ABI "transfer"
                   [ArgAddress (t20_receiverAddress p); ArgBigint (t20_amount p)] None)) s).
Proof.
  intros p valid. subst valid. unfold raises_at_once, transferERC20.
  rewrite bind_getProps. fold p.
  destruct (validAddress (t20_receiverAddress p)) eqn:Hr; cbn [andb].
  - erewrite bind_returns by now apply assertAddress_valid.
    destruct (validAddress (contractAddress (t20_write p))) eqn:Hc.
    + erewrite bind_returns by now apply assertAddress_valid.
      split; [|reflexivity]. split; [discriminate|].
      intros [e He]. exact (False_ind _ (call_differs _ _ _ He)).
    + erewrite bind_raises by now apply assertAddress_invalid.
      split; [|discriminate]. split; eauto.
  - erewrite bind_raises by now apply assertAddress_invalid.
    split; [|discriminate]. split; eauto.
Qed.

(** X4: [approveAllERC721] raises at once exactly when [spenderAddress] or
    [contractAddress] is invalid; otherwise it is one [handleTx] call of
    [setApprovalForAll(spender, shouldAllow)]. *)
Theorem approveAllERC721_delegates (s : State TApproveAllERC721) :
  let p := props s in
  let valid := validAddress (aa_spenderAddress p)
               && validAddress (contractAddress (aa_write p)) in
  (valid = false <-> exists e, raises_at_once approveAllERC721 s e)
  /\ (valid = true ->
      approveAllERC721 s
      = call (HandleTx (aa_write p)
                (mkCall (contractAddress (aa_write p)) erc721ABI "setApprovalForAll"
                   [ArgAddress (aa_spenderAddress p); ArgBool (aa_shouldAllow p)] None)) s).
Proof.
  intros p valid. subst valid. unfold raises_at_once, approveAllERC721.
  rewrite bind_getProps. fold p.
  destruct (validAddress (aa_spenderAddress p)) eqn:Hr; cbn [andb].
  - erewrite bind_returns by now apply assertAddress_valid.
    destruct (validAddress (contractAddress (aa_write p))) eqn:Hc.
    + erewrite bind_returns by now apply assertAddress_valid.
      split; [|reflexivity]. split; [discriminate|].
      intros [e He]. exact (False_ind _ (call_differs _ _ _ He)).
    + erewrite bind_raises by now apply assertAddress_invalid.
      split; [|discriminate]. split; eauto.
  - erewrite bind_raises by now apply assertAddress_invalid.
    split; [|discriminate]. split; eauto.
Qed.

(** X5: [batchTransferERC721] raises at once exactly when the collection,
    receiver or contract address is invalid; otherwise it is one [handleTx]
    call of [migrate(collection, receiver, tokenIDs)] with the token ids as
    given.  An empty list of token ids is not refused. *)
Theorem batchTransferERC721_delegates (s : State TBatchTransferERC721) :
  let p := props s in
  let valid := validAddress (bt_collectionAddress p)
               && validAddress (bt_receiverAddress p)
               && validAddress (contractAddress (bt_write p)) in
  (valid = false <-> exists e, raises_at_once batchTransferERC721 s e)
  /\ (valid = true ->
      batchTransferERC721 s
      = call (HandleTx (bt_write p)
                (mkCall (contractAddress (bt_write p)) NFT_MIGRATOOOR_ABI "migrate"
                   [ArgAddress (bt_collectionAddress p); ArgAddress (bt_receiverAddress p);
                    ArgBigints (bt_tokenIDs p)] None)) s).
Proof.
  intros p valid. subst valid. unfold raises_at_once, batchTransferERC721.
  rewrite bind_getProps. fold p.
  destruct (validAddress (bt_collectionAddress p)) eqn:Hcol; cbn [andb].
  - erewrite bind_returns by now apply assertAddress_valid.
    destruct (validAddress (bt_receiverAddress p)) eqn:Hr; cbn [andb].
    + erewrite bind_returns by now apply assertAddress_valid.
      destruct (validAddress (contractAddress (bt_write p))) eqn:Hc.
      * erewrite bind_returns by now apply assertAddress_valid.
        split; [|reflexivity]. split; [discriminate|].
        intros [e He]. exact (False_ind _ (call_differs _ _ _ He)).
      * erewrite bind_raises by now apply assertAddress_invalid.
        split; [|discriminate]. split; eauto.
    + erewrite bind_raises by now apply assertAddress_invalid.
      split; [|discriminate]. split; eauto.
  - erewrite bind_raises by now apply assertAddress_invalid.
    split; [|discriminate]. split; eauto.
Qed.

End Delegation.

(** ** NFT transfers: what reaches [handleTx] *)

Section NFT.
Context {E : Environment}.

(** The events of a call of [transferERC721]. *)
Lemma transferERC721_emitted (s : State TTransferERC721) :
  let p := props s in
  emitted transferERC721 s
  = if validAddress (t721_receiverAddress p) && validAddress (contractAddress (t721_write p))
    then EvCall (ToWagmiProvider (connector (t721_write p)))
         :: match fst (call (ToWagmiProvider (connector (t721_write p))) s) with
            | inl _ => []
            | inr wagmiProvider =>
                if validAddress (wp_address wagmiProvider)
                then [EvCall (HandleTx (t721_write p)
                                (mkCall (contractAddress (t721_write p)) erc721ABI
                                   "safeTransferFrom"
                                   [ArgAddress (wp_address wagmiProvider);
                                    ArgAddress (t721_receiverAddress p);
                                    ArgBigint (t721_tokenID p)] None))]
                else []
            end
    else [].
Proof.
  intros p. apply emitted_app. unfold transferERC721. rewrite bind_getProps. fold p.
  destruct (validAddress (t721_receiverAddress p)) eqn:Hr; cbn [andb];
    [|erewrite bind_raises by (now apply assertAddress_invalid); simpl;
      now rewrite app_nil_r].
  erewrite bind_returns by now apply assertAddress_valid.
  destruct (validAddress (contractAddress (t721_write p))) eqn:Hc;
    [|erewrite bind_raises by (now apply assertAddress_invalid); simpl;
      now rewrite app_nil_r].
  erewrite bind_returns by now apply assertAddress_valid.
  destruct (call (ToWagmiProvider _) s) as [[e|wagmiProvider] s1] eqn:Hprov;
    destruct (call_log _ _ _ _ Hprov) as [Hlog _].
  - erewrite bind_raises by exact Hprov. exact Hlog.
  - erewrite bind_returns by exact Hprov. cbn [fst].
    destruct (validAddress (wp_address wagmiProvider)) eqn:Hu.
    + erewrite bind_returns by now apply assertAddress_valid.
      destruct (call (HandleTx _ _) s1) as [r s2] eqn:Hh.
      destruct (call_log _ _ _ _ Hh) as [Hlog2 _].
      cbn [snd]. rewrite Hlog2, Hlog, <- app_assoc. reflexivity.
    + erewrite bind_raises by now apply assertAddress_invalid. exact Hlog.
Qed.

(** X6: whenever [transferERC721] hands a transaction to [handleTx], the
    receiver and contract addresses passed validation, the provider was
    resolved for the connector of the request, and the call is
    [safeTransferFrom(from, receiver, tokenID)] where [from] is the address of
    that provider, itself validated. *)
Theorem transferERC721_sends_from_resolved_account
    (s : State TTransferERC721) (ev : event) (d : TContractCall) :
  let p := props s in
  In ev (emitted transferERC721 s) ->
  submitted_call ev = Some d ->
  validAddress (t721_receiverAddress p) = true
  /\ validAddress (contractAddress (t721_write p)) = true
  /\ exists wagmiProvider,
      fst (call (ToWagmiProvider (connector (t721_write p))) s) = inr wagmiProvider
      /\ validAddress (wp_address wagmiProvider) = true
      /\ d = mkCall (contractAddress (t721_write p)) erc721ABI "safeTransferFrom"
               [ArgAddress (wp_address wagmiProvider);
                ArgAddress (t721_receiverAddress p);
                ArgBigint (t721_tokenID p)] None.
Proof.
  intros p Hin Hd. rewrite transferERC721_emitted in Hin. fold p in Hin.
  destruct (validAddress (t721_receiverAddress p)); [|contradiction].
  destruct (validAddress (contractAddress (t721_write p))); [|contradiction].
  cbn [andb] in Hin. destruct Hin as [<-|Hin]; [discriminate Hd|].
  destruct (fst (call _ s)) as [e|wagmiProvider]; [contradiction|].
  destruct (validAddress (wp_address wagmiProvider)) eqn:Hu; [|contradiction].
  destruct Hin as [<-|[]]. injection Hd as <-.
  repeat split. now exists wagmiProvider.
Qed.

(** The events of a call of [transferERC1155]. *)
Lemma transferERC1155_emitted (s : State TTransferERC1155) :
  let p := props s in
  let resolve := call (P:=TTransferERC1155) (ToWagmiProvider (connector (t1155_write p))) s in
  emitted transferERC1155 s
  = if validAddress (t1155_receiverAddress p)
       && validAddress (contractAddress (t1155_write p))
    then EvCall (ToWagmiProvider (connector (t1155_write p)))
         :: match fst resolve with
            | inl _ => []
            | inr wagmiProvider =>
                let query := ReadContract RetBigints wagmiProvider
                               (balanceOfBatch_call (contractAddress (t1155_write p))
                                  wagmiProvider (t1155_tokenIDs p)) in
                if validAddress (wp_address wagmiProvider)
                then EvCall query
                     :: match fst (call query (snd resolve)) with
                        | inl _ => []
                        | inr balanceOfBatch =>
                            let kept := positive_balances (t1155_tokenIDs p) balanceOfBatch in
                            if is_nil kept then []
                            else [EvCall (HandleTx (t1155_write p)
                                            (mkCall (contractAddress (t1155_write p))
                                               ERC1155_ABI "safeBatchTransferFrom"
                                               [ArgAddress (wp_address wagmiProvider);
                                                ArgAddress (t1155_receiverAddress p);
                                                ArgBigints (map fst kept);
                                                ArgBigints (map snd kept);
                                                ArgBytes "0x"] None))]
                        end
                else []
            end
    else [].
Proof.
  intros p resolve. subst resolve. apply emitted_app.
  unfold transferERC1155. rewrite bind_getProps. fold p.
  destruct (validAddress (t1155_receiverAddress p)) eqn:Hr; cbn [andb];
    [|erewrite bind_raises by (now apply assertAddress_invalid); simpl;
      now rewrite app_nil_r].
  erewrite bind_returns by now apply assertAddress_valid.
  destruct (validAddress (contractAddress (t1155_write p))) eqn:Hc;
    [|erewrite bind_raises by (now apply assertAddress_invalid); simpl;
      now rewrite app_nil_r].
  erewrite bind_returns by now apply assertAddress_valid.
  destruct (call (ToWagmiProvider _) s) as [[e|wagmiProvider] s1] eqn:Hprov;
    destruct (call_log _ _ _ _ Hprov) as [Hlog _].
  - erewrite bind_raises by exact Hprov. exact Hlog.
  - erewrite bind_returns by exact Hprov. cbn [fst snd].
    destruct (validAddress (wp_address wagmiProvider)) eqn:Hu;
      [|erewrite bind_raises by (now apply assertAddress_invalid); exact Hlog].
    erewrite bind_returns by now apply assertAddress_valid.
    cbv zeta.
    destruct (call (ReadContract _ _ _) s1) as [[e|balanceOfBatch] s2] eqn:Hread;
      destruct (call_log _ _ _ _ Hread) as [Hlog2 _].
    + erewrite bind_raises by exact Hread. cbn [fst snd].
      rewrite Hlog2, Hlog, <- app_assoc. reflexivity.
    + erewrite bind_returns by exact Hread. cbn [fst snd].
      rewrite filter_loop_is_nil, filter_loop_spec. cbn [fst snd].
      destruct (is_nil (positive_balances (t1155_tokenIDs p) balanceOfBatch)); cbn [negb].
      * unfold bind, assert, throw. cbn [snd].
        rewrite Hlog2, Hlog, <- app_assoc. reflexivity.
      * unfold bind at 1. unfold assert, ret.
        destruct (call (HandleTx _ _) s2) as [r s3] eqn:Hh.
        destruct (call_log _ _ _ _ Hh) as [Hlog3 _].
        cbn [snd]. rewrite Hlog3, Hlog2, Hlog, <- !app_assoc. reflexivity.
Qed.

(** X14: whatever the environment answers, a transaction [transferERC1155]
    hands to [handleTx] is a [safeBatchTransferFrom] whose two arrays are not
    empty and have the same length, whose amounts are all strictly positive,
    and whose token ids are a subsequence of the ids of the request. *)
Theorem transferERC1155_batch_well_formed
    (s : State TTransferERC1155) (ev : event) (d : TContractCall) :
  In ev (emitted transferERC1155 s) ->
  submitted_call ev = Some d ->
  exists from ids amounts,
    functionName d = "safeBatchTransferFrom"
    /\ args d = [ArgAddress from; ArgAddress (t1155_receiverAddress (props s));
                 ArgBigints ids; ArgBigints amounts; ArgBytes "0x"]
    /\ ids <> []
    /\ length ids = length amounts
    /\ Forall (fun amount => amount > 0) amounts
    /\ sublist ids (t1155_tokenIDs (props s)).
Proof.
  intros Hin Hd. rewrite transferERC1155_emitted in Hin. cbv zeta in Hin.
  destruct (_ && _); [|contradiction].
  destruct Hin as [<-|Hin]; [discriminate Hd|].
  destruct (fst (call (ToWagmiProvider _) s)) as [e|wagmiProvider]; [contradiction|].
  destruct (validAddress (wp_address wagmiProvider)); [|contradiction].
  destruct Hin as [<-|Hin]; [discriminate Hd|].
  destruct (fst (call (ReadContract _ _ _) _)) as [e|balanceOfBatch]; [contradiction|].
  destruct (positive_balances (t1155_tokenIDs (props s)) balanceOfBatch) as [|tb kept]
    eqn:Hkept; [contradiction|].
  cbn [is_nil] in Hin. destruct Hin as [<-|[]]. injection Hd as <-.
  exists (wp_address wagmiProvider), (map fst (tb :: kept)), (map snd (tb :: kept)).
  repeat apply conj; try reflexivity.
  - discriminate.
  - now rewrite !length_map.
  - rewrite <- Hkept. apply positive_balances_positive.
  - rewrite <- Hkept. apply positive_balances_sublist.
Qed.

End NFT.

(** ** The filtering loop at its bounds, and listing before transfer *)

Section LoopBounds.

Lemma combine_take_l {A B} (l1 : list A) (l2 : list B) :
  combine (take (length l2) l1) l2 = combine l1 l2.
Proof.
  revert l2. induction l1 as [|a l1 IH]; intros [|b l2]; simpl; try reflexivity.
  now rewrite IH.
Qed.

Lemma combine_take_r {A B} (l1 : list A) (l2 : list B) :
  combine l1 (take (length l1) l2) = combine l1 l2.
Proof.
  revert l2. induction l1 as [|a l1 IH]; intros [|b l2]; simpl; try reflexivity.
  now rewrite IH.
Qed.

(** X12: the loop stops at the shorter of the two arrays: token ids past the
    end of the answer of [balanceOfBatch] are dropped, their balance being
    [undefined], and balances past the last token id are not read. *)
Theorem filter_loop_bounds (tokenIDs balanceOfBatch : list Z) :
  filter_loop tokenIDs balanceOfBatch
  = filter_loop (take (length balanceOfBatch) tokenIDs) balanceOfBatch
  /\ filter_loop tokenIDs balanceOfBatch
     = filter_loop tokenIDs (take (length tokenIDs) balanceOfBatch).
Proof.
  rewrite !filter_loop_spec. unfold positive_balances.
  now rewrite combine_take_l, combine_take_r.
Qed.

Lemma combine_fst_snd {A B} (l : list (A * B)) :
  combine (map fst l) (map snd l) = l.
Proof. induction l as [|[a b] l IH]; simpl; [reflexivity|now rewrite IH]. Qed.

Lemma filter_twice {A} (f : A -> bool) (l : list A) :
  List.filter f (List.filter f l) = List.filter f l.
Proof.
  induction l as [|a l IH]; simpl; [reflexivity|].
  destruct (f a) eqn:Hf; simpl; [rewrite Hf|]; now rewrite ?IH.
Qed.

(** What the loop keeps, it keeps again. *)
Lemma positive_balances_kept (tokenIDs balances : list Z) :
  let kept := positive_balances tokenIDs balances in
  positive_balances (map fst kept) (map snd kept) = kept.
Proof.
  intros kept. unfold positive_balances at 1. rewrite combine_fst_snd.
  unfold kept, positive_balances. apply filter_twice.
Qed.

End LoopBounds.

Section ListThenTransfer.
Context {E : Environment}.

(** X13: what [listERC1155] returns can be handed to [transferERC1155]
    as it is: when the transfer is asked for the listed ids and the chain
    still answers the listed amounts, nothing is dropped and
    [safeBatchTransferFrom] carries exactly the listed ids and amounts. *)
Theorem list_then_transfer
    (sl sl' : State TListERC1155) (ids amounts : list Z)
    (s s1 s2 : State TTransferERC1155) wagmiProvider :
  let p := props s in
  listERC1155 sl = (inr (ids, amounts), sl') ->
  ids <> [] ->
  t1155_tokenIDs p = ids ->
  validAddress (t1155_receiverAddress p) = true ->
  validAddress (contractAddress (t1155_write p)) = true ->
  call (ToWagmiProvider (connector (t1155_write p))) s = (inr wagmiProvider, s1) ->
  validAddress (wp_address wagmiProvider) = true ->
  call (ReadContract RetBigints wagmiProvider
          (balanceOfBatch_call (contractAddress (t1155_write p)) wagmiProvider ids)) s1
  = (inr amounts, s2) ->
  transferERC1155 s
  = call (HandleTx (t1155_write p)
            (mkCall (contractAddress (t1155_write p)) ERC1155_ABI "safeBatchTransferFrom"
               [ArgAddress (wp_address wagmiProvider);
                ArgAddress (t1155_receiverAddress p);
                ArgBigints ids; ArgBigints amounts; ArgBytes "0x"] None)) s2.
Proof.
  intros p Hlist Hne Hids Hr Hc Hprov Hu Hread.
  apply listERC1155_returns in Hlist. destruct Hlist as [balances Hlist].
  rewrite filter_loop_spec in Hlist. cbn [fst snd] in Hlist.
  injection Hlist as Hi Ha.
  rewrite <- Hids in Hread.
  rewrite (transferERC1155_run s s1 s2 wagmiProvider amounts Hr Hc Hprov Hu Hread).
  cbv zeta. fold p. rewrite filter_loop_is_nil, filter_loop_spec, Hids.
  rewrite Hi, Ha, positive_balances_kept, <- Hi, <- Ha.
  destruct (positive_balances _ balances) eqn:Hkept; [now subst ids|reflexivity].
Qed.

End ListThenTransfer.

(** ** Dispersal: totals and the order of the checks *)

Section DisperseMore.
Context {E : Environment}.

Lemma sum_amounts_bounds (amounts : list Z) :
  existsb (fun amount => amount <=? 0) amounts = false ->
  (forall amount, In amount amounts -> 0 < amount <= sum_amounts amounts)
  /\ Z.of_nat (length amounts) <= sum_amounts amounts.
Proof.
  induction amounts as [|a l IH]; simpl; intros Hpos.
  - split; [intros amount []|lia].
  - apply orb_false_elim in Hpos. destruct Hpos as [Ha Hl].
    apply Z.leb_gt in Ha. destruct (IH Hl) as [Heach Hlen]. split.
    + intros amount [<-|Hin]; [lia|]. specialize (Heach amount Hin). lia.
    + lia.
Qed.

(** X16: a dispersal of ether that passes validation attaches a value that
    is at least each single amount, all of them strictly positive, and at
    least one wei for each receiver. *)
Theorem disperseETH_value_bounds (s : State TDisperseETH) :
  let p := props s in
  disperseETH_invalid p = false ->
  exists d v,
    disperseETH s = call (HandleTx (de_write p) d) s
    /\ value d = Some v
    /\ (forall amount, In amount (de_amounts p) -> 0 < amount <= v)
    /\ Z.of_nat (length (de_receivers p)) <= v.
Proof.
  intros p Hvalid. exists (disperseEther_call p), (sum_amounts (de_amounts p)).
  pose proof (disperseETH_run s) as Hrun. cbv zeta in Hrun. fold p in Hrun.
  rewrite Hvalid in Hrun. split; [exact Hrun|]. split; [reflexivity|].
  unfold disperseETH_invalid, invalid_batch in Hvalid.
  apply orb_false_elim in Hvalid. destruct Hvalid as [_ Hbatch].
  apply orb_false_elim in Hbatch. destruct Hbatch as [Hbatch Hlen].
  apply orb_false_elim in Hbatch. destruct Hbatch as [_ Hpos].
  apply negb_false_iff, Nat.eqb_eq in Hlen.
  destruct (sum_amounts_bounds _ Hpos) as [Heach Hcount].
  split; [exact Heach|]. now rewrite Hlen.
Qed.

(** X17: the checks of [disperseETH] run in order and stop at the first
    that fails: with a valid contract address, the condition raised names
    the first receiver that is not a valid address, whatever the amounts
    are; with valid receivers, an amount that is not positive is reported
    before a difference in length. *)
Theorem disperseETH_first_failure (s : State TDisperseETH) :
  let p := props s in
  let bad := fun receiver => negb (validAddress (Some receiver)) in
  validAddress (contractAddress (de_write p)) = true ->
  (forall receiver, find bad (de_receivers p) = Some receiver ->
     disperseETH s = (inl (InvalidAddress (Some receiver)), s))
  /\ (find bad (de_receivers p) = None ->
      existsb (fun amount => amount <=? 0) (de_amounts p) = true ->
      disperseETH s = (inl (AssertionError "amount must be greater than 0"), s)).
Proof.
  intros p bad Hc.
  pose proof (disperseETH_run s) as Hrun. cbv zeta in Hrun. fold p in Hrun.
  unfold disperseETH_invalid, invalid_batch in Hrun. rewrite Hc in Hrun.
  cbn [negb orb] in Hrun. fold bad in Hrun. split.
  - intros receiver Hfind.
    assert (Hex : existsb bad (de_receivers p) = true).
    { apply existsb_exists. exists receiver. apply find_some in Hfind. exact Hfind. }
    rewrite Hex, Hfind in Hrun. exact Hrun.
  - intros Hfind Hneg.
    assert (Hex : existsb bad (de_receivers p) = false).
    { destruct (existsb bad (de_receivers p)) eqn:Hex; [|reflexivity].
      apply existsb_exists in Hex. destruct Hex as (r & Hin & Hbad).
      now rewrite (find_none _ _ Hfind r Hin) in Hbad. }
    rewrite Hex, Hneg in Hrun. exact Hrun.
Qed.

(** X18: a dispersal of tokens that passes validation is one [handleTx]
    call of [disperseToken(token, receivers, amounts)] with the receivers and
    amounts as given and no value attached. *)
Theorem disperseERC20_passes_batch (s : State TDisperseERC20) :
  let p := props s in
  disperseERC20_invalid p = false ->
  disperseERC20 s
  = call (HandleTx (d20_write p)
            (mkCall (contractAddress (d20_write p)) DISPERSE_ABI "disperseToken"
               [ArgAddress (d20_tokenToDisperse p);
                ArgAddresses (map Some (d20_receivers p));
                ArgBigints (d20_amounts p)] None)) s.
Proof.
  intros p Hvalid.
  pose proof (disperseERC20_run s) as Hrun. cbv zeta in Hrun. fold p in Hrun.
  now rewrite Hvalid in Hrun.
Qed.

End DisperseMore.

(** ** The allowance test is monotone *)

Section AllowanceOrder.
Context {E : Environment}.

(** X19: for one and the same allowance read from the chain, an approval
    granted for an amount is granted for every smaller positive amount; and
    an approval granted when the amount is omitted or [0n] is granted for
    every positive amount up to [MAX_UINT_256]. *)
Theorem isApprovedERC20_monotone
    (s s1 s2 t t1 t2 : State TIsApprovedERC20) pa pb (allowance smaller : Z) :
  call (ToWagmiProvider (ia_connector (props s))) s = (inr pa, s1) ->
  call (ReadContract RetBigint pa
          (mkCall (Some (ia_contractAddress (props s))) erc20ABI "allowance"
             [ArgAddress (wp_address pa); ArgAddress (Some (ia_spenderAddress (props s)))]
             None)) s1 = (inr allowance, s2) ->
  call (ToWagmiProvider (ia_connector (props t))) t = (inr pb, t1) ->
  call (ReadContract RetBigint pb
          (mkCall (Some (ia_contractAddress (props t))) erc20ABI "allowance"
             [ArgAddress (wp_address pb); ArgAddress (Some (ia_spenderAddress (props t)))]
             None)) t1 = (inr allowance, t2) ->
  ia_amount (props t) = Some smaller ->
  0 < smaller ->
  (exists amount, ia_amount (props s) = Some amount /\ smaller <= amount)
  \/ ((ia_amount (props s) = None \/ ia_amount (props s) = Some 0)
      /\ smaller <= MAX_UINT_256) ->
  fst (isApprovedERC20 s) = inr true ->
  fst (isApprovedERC20 t) = inr true.
Proof.
  intros Hpa Hra Hpb Hrb Hsmall Hpos Hle.
  rewrite (isApprovedERC20_run s s1 s2 pa allowance Hpa Hra).
  rewrite (isApprovedERC20_run t t1 t2 pb allowance Hpb Hrb).
  cbn [fst]. rewrite Hsmall. intros Hs. injection Hs as Hs.
  f_equal. rewrite Z.geb_le in *. unfold or_bigint in *.
  destruct (Z.eqb_spec smaller 0) as [->|_]; [lia|].
  destruct Hle as [(amount & Ha & Hle) | ([Ha|Ha] & Hle)]; rewrite Ha in Hs.
  - destruct (Z.eqb_spec amount 0); lia.
  - lia.
  - simpl in Hs. lia.
Qed.

End AllowanceOrder.

(** ** Native transfer: the other exits *)

Section LogAdds.
Context {E : Environment} {P : Type}.
Variable Q : event -> Prop.

Lemma log_adds_refl (s : State P) : log_adds Q s s.
Proof. exists []. split; [now rewrite app_nil_r|constructor]. Qed.

Lemma log_adds_trans (s1 s2 s3 : State P) :
  log_adds Q s1 s2 -> log_adds Q s2 s3 -> log_adds Q s1 s3.
Proof.
  intros (l1 & H1 & Hq1) (l2 & H2 & Hq2). exists (l1 ++ l2). split.
  - now rewrite H2, H1, app_assoc.
  - apply Forall_app. now split.
Qed.

Lemma log_adds_call {X} (c : ext X) :
  Q (EvCall c) -> stable (P:=P) (log_adds Q) (call c).
Proof.
  intros Hq s. unfold call. destruct (oracle X c (world s)) as [r w'].
  exists [EvCall c]. split; [reflexivity|]. now repeat constructor.
Qed.

Lemma log_adds_emit ev : Q ev -> stable (P:=P) (log_adds Q) (emit ev).
Proof. intros Hq s. exists [ev]. split; [reflexivity|]. now repeat constructor. Qed.

Lemma log_adds_callStatus h st :
  (forall cb, Q (EvStatus cb st)) -> stable (P:=P) (log_adds Q) (callStatus h st).
Proof.
  intros Hq s. destruct h as [cb|]; [|apply log_adds_refl].
  unfold callStatus. destruct (notify cb st (world s)) as [r w'].
  exists [EvStatus cb st]. split; [reflexivity|]. now repeat constructor.
Qed.

End LogAdds.

(** One step through a part of [transferEther] that schedules no timer. *)
Ltac no_timer_step :=
  lazymatch goal with
  | |- stable _ (bind _ _) => apply stable_bind; [exact (log_adds_trans _) | | intros ?]
  | |- stable _ (ret _) => apply stable_ret; exact (log_adds_refl _)
  | |- stable _ (try_catch _ _) =>
      apply stable_try_catch; [exact (log_adds_trans _) | | intros ?]
  | |- stable _ (call _) => apply log_adds_call; first [reflexivity | exact I]
  | |- stable _ (emit _) => apply log_adds_emit; first [reflexivity | exact I]
  | |- stable _ (callStatus _ _) =>
      apply log_adds_callStatus; first [reflexivity | intros ?; exact I]
  | |- stable _ (match ?x with _ => _ end) => destruct x
  end.

Section TransferEtherMore.
Context {E : Environment}.

(** A callback that returns whenever it is called returns from
    [callStatus]. *)
Lemma callStatus_of_returning {P} h st (s : State P) :
  callback_returns h -> fst (callStatus h st s) = inr tt.
Proof.
  intros Hh. destruct h as [cb|]; [|reflexivity].
  specialize (Hh cb st (world s) eq_refl). unfold callStatus.
  now destruct (notify cb st (world s)).
Qed.

(** X9: without [shouldAdjustForGas] (omitted or false), [transferEther]
    prepares one request, for the whole amount, and sends it: the gas price
    is not fetched and nothing is deducted.  The request is reached when the
    addresses are valid, the status callback returned from the pending
    status and the provider was resolved. *)
Theorem transferEther_plain_value (s s1 : State TTransferEther) wagmiProvider :
  let p := props s in
  te_shouldAdjustForGas p <> Some true ->
  validAddress (te_receiverAddress p) = true ->
  fst (callStatus (te_statusHandler p) (with_pending defaultTxStatus true) s) = inr tt ->
  call (ToWagmiProvider (te_connector p))
    (snd (callStatus (te_statusHandler p) (with_pending defaultTxStatus true) s))
  = (inr wagmiProvider, s1) ->
  validAddress (wp_address wagmiProvider) = true ->
  transferEther s
  = try_finally
      (try_catch
         (let* config :=
            call (PrepareSendTransaction wagmiProvider (te_receiverAddress p)
                    (te_amount p)) in
          sendAndConfirm p wagmiProvider config)
         (transferEther_catch p))
      (transferEther_finally p) s1.
Proof.
  intros p Hadj Hr Hpend Hprov Hu.
  rewrite (transferEther_run s s1 wagmiProvider Hr Hpend Hprov Hu). fold p.
  apply try_finally_from, try_catch_from.
  unfold transferEther_try, prepareConfig, bind.
  destruct (call (PrepareSendTransaction _ _ _) s1) as [[e|config] s2]; [reflexivity|].
  destruct (te_shouldAdjustForGas p) as [[|]|]; [now contradiction Hadj|reflexivity..].
Qed.

(** X11: when the transaction is mined and reverted, and the status
    callback returns from the error status it is then given,
    [transferEther] does not raise and logs no error to the console: it
    schedules the reset and returns the receipt with [isSuccessful] false
    and no error. *)
Theorem transferEther_reverted
    (s s1 s2 s3 s4 : State TTransferEther) wagmiProvider config hash receipt :
  let p := props s in
  validAddress (te_receiverAddress p) = true ->
  fst (callStatus (te_statusHandler p) (with_pending defaultTxStatus true) s) = inr tt ->
  call (ToWagmiProvider (te_connector p))
    (snd (callStatus (te_statusHandler p) (with_pending defaultTxStatus true) s))
  = (inr wagmiProvider, s1) ->
  validAddress (wp_address wagmiProvider) = true ->
  prepareConfig p wagmiProvider s1 = (inr config, s2) ->
  call (SendTransaction config) s2 = (inr hash, s3) ->
  call (WaitForTransaction (chainId wagmiProvider) hash) s3 = (inr receipt, s4) ->
  status receipt = StatusReverted ->
  fst (callStatus (te_statusHandler p) (with_error defaultTxStatus true) s4) = inr tt ->
  fst (transferEther s) = inr (mkResponse false (Some receipt) None)
  /\ log (snd (transferEther s))
     = log s4
         ++ match te_statusHandler p with
            | Some cb => [EvStatus cb (with_error defaultTxStatus true)]
            | None => []
            end
         ++ [EvSetTimeout 3000 (te_statusHandler p) defaultTxStatus].
Proof.
  intros p Hr Hpend Hprov Hu Hcfg Hsend Hwait Hrev Hcb.
  rewrite (transferEther_run s s1 wagmiProvider Hr Hpend Hprov Hu). fold p.
  unfold try_finally, try_catch, transferEther_try, sendAndConfirm.
  erewrite bind_returns by exact Hcfg.
  erewrite bind_returns by exact Hsend.
  erewrite bind_returns by exact Hwait.
  rewrite Hrev. unfold bind. rewrite (callStatus_returns _ _ _ Hcb).
  unfold transferEther_finally, emit, ret. cbn [fst snd log is_success]. split; [reflexivity|].
  rewrite callStatus_log. now rewrite <- app_assoc.
Qed.

(** With a status callback that returns, the [try] statement with its
    [catch] never raises. *)
Lemma transferEther_try_catch_returns (p : TTransferEther) wagmiProvider
    (s : State TTransferEther) :
  callback_returns (te_statusHandler p) ->
  exists r s',
    try_catch (transferEther_try p wagmiProvider) (transferEther_catch p) s = (inr r, s').
Proof.
  intros Hh.
  unfold try_catch. destruct (transferEther_try p wagmiProvider s) as [[e|r] s']; [|eauto].
  unfold transferEther_catch, bind.
  change (emit (EvConsoleError e) s')
    with (inr (A:=exn) tt, snd (emit (P:=TTransferEther) (EvConsoleError e) s')).
  cbn iota beta.
  rewrite (callStatus_returns _ _ _ (callStatus_of_returning _ _ _ Hh)). eauto.
Qed.

(** The [try] statement with its [catch] schedules no timer. *)
Lemma transferEther_try_catch_no_timer (p : TTransferEther) wagmiProvider :
  stable (log_adds (fun ev => is_timer ev = false))
    (try_catch (transferEther_try p wagmiProvider) (transferEther_catch p)).
Proof.
  unfold transferEther_try, transferEther_catch, prepareConfig, sendAndConfirm, adjustForGas.
  repeat no_timer_step.
Qed.

(** X10: with a status callback that returns whenever it is called,
    [transferEther] raises only before its [try] statement, and then
    nothing was prepared or sent and no reset of the status is scheduled:
    an invalid receiver raises before anything happened; a failure to
    resolve the provider, or an invalid user address, raises after the
    pending status was reported, which is then never reset.  When
    [transferEther] returns, the reset timer was scheduled once, as the
    last thing it did. *)
Theorem transferEther_exits (s : State TTransferEther) :
  let p := props s in
  let pending :=
    match te_statusHandler p with
    | Some cb => [EvStatus cb (with_pending defaultTxStatus true)]
    | None => []
    end in
  callback_returns (te_statusHandler p) ->
  match transferEther s with
  | (inl e, _) =>
      emitted transferEther s
      = if validAddress (te_receiverAddress p)
        then pending ++ [EvCall (ToWagmiProvider (te_connector p))]
        else []
  | (inr r, _) =>
      exists l,
        emitted transferEther s
        = l ++ [EvSetTimeout 3000 (te_statusHandler p) defaultTxStatus]
        /\ Forall (fun ev => is_timer ev = false) l
  end.
Proof.
  intros p pending Hh.
  assert (Hpre : forall s1 : State TTransferEther, log s1 = log s ++ pending ->
            forall r, log (snd (call (P:=TTransferEther)
                                   (ToWagmiProvider (te_connector p)) s1)) = r ->
            r = log s ++ pending ++ [EvCall (ToWagmiProvider (te_connector p))]).
  { intros s1 Hs1 r <-. destruct (call _ s1) as [r1 s2] eqn:Hc.
    destruct (call_log _ _ _ _ Hc) as [Hl _]. cbn [snd].
    now rewrite Hl, Hs1, <- app_assoc. }
  unfold emitted, transferEther. rewrite bind_getProps. fold p.
  destruct (validAddress (te_receiverAddress p)) eqn:Hr;
    [|erewrite bind_raises by (now apply assertAddress_invalid); cbn [snd];
      apply drop_all].
  erewrite bind_returns by now apply assertAddress_valid.
  erewrite bind_returns
    by (apply callStatus_returns; apply callStatus_of_returning; exact Hh).
  pose proof (callStatus_log (te_statusHandler p) (with_pending defaultTxStatus true) s)
    as Hs0. fold pending in Hs0.
  specialize (Hpre _ Hs0 _ eq_refl).
  destruct (call (ToWagmiProvider _) _) as [[e|wagmiProvider] s1] eqn:Hprov;
    cbn [snd] in Hpre.
  - erewrite bind_raises by exact Hprov. cbn [snd]. rewrite Hpre. apply drop_app_length.
  - erewrite bind_returns by exact Hprov.
    destruct (validAddress (wp_address wagmiProvider)) eqn:Hu;
      [|erewrite bind_raises by (now apply assertAddress_invalid); cbn [snd];
        rewrite Hpre; apply drop_app_length].
    erewrite bind_returns by now apply assertAddress_valid.
    unfold try_finally.
    destruct (transferEther_try_catch_returns p wagmiProvider s1 Hh) as (r & s2 & Htry).
    destruct (transferEther_try_catch_no_timer p wagmiProvider s1) as (l & Hl & Hq).
    rewrite Htry in *. cbn [snd] in Hl.
    unfold transferEther_finally, emit. cbn [snd log].
    exists ((pending ++ [EvCall (ToWagmiProvider (te_connector p))]) ++ l). split.
    + rewrite Hl, Hpre, <- !app_assoc. rewrite drop_app_length.
      now rewrite <- ?app_assoc.
    + apply Forall_app. split; [|exact Hq].
      apply Forall_app. split; [|now repeat constructor].
      unfold pending. destruct (te_statusHandler p); now repeat constructor.
Qed.

End TransferEtherMore.

(** ** The balance query, and transfers that cannot pay for gas *)

Section Queries.
Context {E : Environment}.

(** The events of a call of [listERC1155]. *)
Lemma listERC1155_emitted (s : State TListERC1155) :
  let p := props s in
  emitted listERC1155 s
  = if validAddress (contractAddress (l1155_write p))
    then EvCall (ToWagmiProvider (connector (l1155_write p)))
         :: match fst (call (ToWagmiProvider (connector (l1155_write p))) s) with
            | inl _ => []
            | inr wagmiProvider =>
                if validAddress (wp_address wagmiProvider)
                then [EvCall (ReadContract RetBigints wagmiProvider
                                (balanceOfBatch_call (contractAddress (l1155_write p))
                                   wagmiProvider (l1155_tokenIDs p)))]
                else []
            end
    else [].
Proof.
  intros p. apply emitted_app. unfold listERC1155. rewrite bind_getProps. fold p.
  destruct (validAddress (contractAddress (l1155_write p))) eqn:Hc;
    [|erewrite bind_raises by (now apply assertAddress_invalid); simpl;
      now rewrite app_nil_r].
  erewrite bind_returns by now apply assertAddress_valid.
  destruct (call (ToWagmiProvider _) s) as [[e|wagmiProvider] s1] eqn:Hprov;
    destruct (call_log _ _ _ _ Hprov) as [Hlog _].
  - erewrite bind_raises by exact Hprov. exact Hlog.
  - erewrite bind_returns by exact Hprov. cbn [fst].
    destruct (validAddress (wp_address wagmiProvider)) eqn:Hu;
      [|erewrite bind_raises by (now apply assertAddress_invalid); exact Hlog].
    erewrite bind_returns by now apply assertAddress_valid.
    unfold bind.
    destruct (call (ReadContract _ _ _) s1) as [[e|balanceOfBatch] s2] eqn:Hread;
      destruct (call_log _ _ _ _ Hread) as [Hlog2 _];
      cbn [snd ret]; rewrite Hlog2, Hlog, <- app_assoc; reflexivity.
Qed.

Lemma balanceOfBatch_call_well_formed contract (wagmiProvider : TWagmiProvider)
    (tokenIDs : list Z) :
  functionName (balanceOfBatch_call contract wagmiProvider tokenIDs) = "balanceOfBatch"
  /\ exists accounts,
      args (balanceOfBatch_call contract wagmiProvider tokenIDs)
      = [ArgAddresses accounts; ArgBigints tokenIDs]
      /\ length accounts = length tokenIDs
      /\ Forall (eq (wp_address wagmiProvider)) accounts.
Proof.
  split; [reflexivity|].
  exists (Array_fill (length tokenIDs) (wp_address wagmiProvider)).
  unfold Array_fill. repeat apply conj; [reflexivity|apply repeat_length|].
  apply List.Forall_forall. intros a Ha. symmetry. exact (repeat_spec _ _ _ Ha).
Qed.

(** X15: the only contract read of [listERC1155] and of
    [transferERC1155] is a [balanceOfBatch] for the token ids of the request,
    asked with one account per token id, each the validated address of the
    resolved provider: the two arrays of the query always have the same
    length. *)
Theorem balanceOfBatch_query_well_formed :
  (forall (s : State TListERC1155) ev wagmiProvider d,
      In ev (emitted listERC1155 s) ->
      read_query ev = Some (wagmiProvider, d) ->
      validAddress (wp_address wagmiProvider) = true
      /\ functionName d = "balanceOfBatch"
      /\ exists accounts,
          args d = [ArgAddresses accounts; ArgBigints (l1155_tokenIDs (props s))]
          /\ length accounts = length (l1155_tokenIDs (props s))
          /\ Forall (eq (wp_address wagmiProvider)) accounts)
  /\ (forall (s : State TTransferERC1155) ev wagmiProvider d,
      In ev (emitted transferERC1155 s) ->
      read_query ev = Some (wagmiProvider, d) ->
      validAddress (wp_address wagmiProvider) = true
      /\ functionName d = "balanceOfBatch"
      /\ exists accounts,
          args d = [ArgAddresses accounts; ArgBigints (t1155_tokenIDs (props s))]
          /\ length accounts = length (t1155_tokenIDs (props s))
          /\ Forall (eq (wp_address wagmiProvider)) accounts).
Proof.
  split; intros s ev wagmiProvider d Hin Hq.
  - rewrite listERC1155_emitted in Hin. cbv zeta in Hin.
    destruct (validAddress (contractAddress _)); [|contradiction].
    destruct Hin as [<-|Hin]; [discriminate Hq|].
    destruct (fst (call _ s)) as [e|resolved]; [contradiction|].
    destruct (validAddress (wp_address resolved)) eqn:Hu; [|contradiction].
    destruct Hin as [<-|[]]. injection Hq as <- <-.
    split; [exact Hu|]. apply balanceOfBatch_call_well_formed.
  - rewrite transferERC1155_emitted in Hin. cbv zeta in Hin.
    destruct (_ && _); [|contradiction].
    destruct Hin as [<-|Hin]; [discriminate Hq|].
    destruct (fst (call (ToWagmiProvider _) s)) as [e|resolved]; [contradiction|].
    destruct (validAddress (wp_address resolved)) eqn:Hu; [|contradiction].
    destruct Hin as [<-|Hin].
    + injection Hq as <- <-. split; [exact Hu|]. apply balanceOfBatch_call_well_formed.
    + destruct (fst (call (ReadContract _ _ _) _)) as [e|balanceOfBatch]; [contradiction|].
      destruct (is_nil _); [contradiction|].
      destruct Hin as [<-|[]]. discriminate Hq.
Qed.

(** Once the request is prepared, the next event is its submission,
    whatever follows. *)
Lemma sendAndConfirm_logs_submission (p : TTransferEther) wagmiProvider config
    (s : State TTransferEther) :
  exists l,
    log (snd (try_finally
                (try_catch (sendAndConfirm p wagmiProvider config) (transferEther_catch p))
                (transferEther_finally p) s))
    = log s ++ EvCall (SendTransaction config) :: l.
Proof.
  assert (Hrest : forall hash,
            stable (log_adds (fun _ => True))
              (try_finally
                 (try_catch
                    (let* receipt :=
                       call (WaitForTransaction (chainId wagmiProvider) hash) in
                     let* _ :=
                       match status receipt with
                       | StatusSuccess =>
                           callStatus (te_statusHandler p)
                             (with_success defaultTxStatus true)
                       | StatusReverted =>
                           callStatus (te_statusHandler p)
                             (with_error defaultTxStatus true)
                       end in
                     ret (mkResponse (is_success (status receipt)) (Some receipt) None))
                    (transferEther_catch p))
                 (transferEther_finally p))).
  { intros hash. apply stable_try_finally; [exact (log_adds_trans _)| |].
    - unfold transferEther_catch. repeat no_timer_step.
    - unfold transferEther_finally. no_timer_step. }
  assert (Hcatch : forall e,
            stable (log_adds (fun _ => True))
              (try_finally (transferEther_catch p e) (transferEther_finally p))).
  { intros e. apply stable_try_finally; [exact (log_adds_trans _)| |].
    - unfold transferEther_catch. repeat no_timer_step.
    - unfold transferEther_finally. no_timer_step. }
  unfold sendAndConfirm.
  destruct (call (P:=TTransferEther) (SendTransaction config) s) as [[e|hash] s1] eqn:Hsend;
    destruct (call_log _ _ _ _ Hsend) as [Hlog _].
  - destruct (Hcatch e s1) as (l & Hl & _). exists l.
    unfold try_finally, try_catch, bind in *. rewrite Hsend.
    rewrite Hl, Hlog, <- app_assoc. reflexivity.
  - destruct (Hrest hash s1) as (l & Hl & _). exists l.
    unfold try_finally, try_catch, bind in *. rewrite Hsend.
    rewrite Hl, Hlog, <- app_assoc. reflexivity.
Qed.

(** X20: with [shouldAdjustForGas], [transferEther] does not compare the
    amount with what it deducts: for a gas estimate and a priority fee that
    are not negative, the value it asks [prepareSendTransaction] for, the
    second time, is at most the amount less 21000, hence zero or negative
    for an amount of 21000 wei or less; and whatever
    [prepareSendTransaction] answers to that request is handed to
    [sendTransaction] next, without a check of its value. *)
Theorem transferEther_adjustment_unguarded
    (s s1 s2 s3 : State TTransferEther) wagmiProvider config (fee : Z) :
  let p := props s in
  te_shouldAdjustForGas p = Some true ->
  validAddress (te_receiverAddress p) = true ->
  fst (callStatus (te_statusHandler p) (with_pending defaultTxStatus true) s) = inr tt ->
  call (ToWagmiProvider (te_connector p))
    (snd (callStatus (te_statusHandler p) (with_pending defaultTxStatus true) s))
  = (inr wagmiProvider, s1) ->
  validAddress (wp_address wagmiProvider) = true ->
  call (PrepareSendTransaction wagmiProvider (te_receiverAddress p) (te_amount p)) s1
  = (inr config, s2) ->
  (falsy_bigint (maxPriorityFeePerGas config) = false
   /\ maxPriorityFeePerGas config = Some fee /\ s3 = s2
   \/ falsy_bigint (maxPriorityFeePerGas config) = true
      /\ exists client s',
          call (GetPublicClient (chainId wagmiProvider)) s2 = (inr client, s')
          /\ call (GetGasPrice client) s' = (inr fee, s3)) ->
  0 <= toBigInt (gas config) ->
  0 <= fee ->
  exists v,
    v <= te_amount p - 21000
    /\ (te_amount p <= 21000 -> v <= 0)
    /\ transferEther s
       = try_finally
           (try_catch
              (let* adjusted :=
                 call (PrepareSendTransaction wagmiProvider (te_receiverAddress p) v) in
               sendAndConfirm p wagmiProvider adjusted)
              (transferEther_catch p))
           (transferEther_finally p) s3
    /\ forall adjusted s4,
        call (PrepareSendTransaction wagmiProvider (te_receiverAddress p) v) s3
        = (inr adjusted, s4) ->
        exists l,
          log (snd (transferEther s)) = log s4 ++ EvCall (SendTransaction adjusted) :: l.
Proof.
  intros p Hadj Hr Hpend Hprov Hu Hprep Hfee Hgas Hpos.
  exists (te_amount p - (toBigInt (gas config) * fee + 21000)).
  assert (0 <= toBigInt (gas config) * fee) by now apply Z.mul_nonneg_nonneg.
  assert (Hrun : transferEther s
                 = try_finally
                     (try_catch
                        (let* adjusted :=
                           call (PrepareSendTransaction wagmiProvider (te_receiverAddress p)
                                   (te_amount p - (toBigInt (gas config) * fee + 21000))) in
                         sendAndConfirm p wagmiProvider adjusted)
                        (transferEther_catch p))
                     (transferEther_finally p) s3).
  { rewrite (transferEther_run s s1 wagmiProvider Hr Hpend Hprov Hu). fold p.
    apply try_finally_from, try_catch_from. unfold transferEther_try.
    apply bind_from.
    exact (prepareConfig_adjusted p wagmiProvider s1 s2 s3 config fee Hadj Hprep Hfee). }
  repeat apply conj; [lia|lia|exact Hrun|].
  intros adjusted s4 Hsecond. rewrite Hrun.
  destruct (sendAndConfirm_logs_submission p wagmiProvider adjusted s4) as [l Hl].
  exists l. rewrite <- Hl. f_equal. f_equal.
  apply try_finally_from, try_catch_from.
  now erewrite bind_returns by exact Hsecond.
Qed.

(** X21: when the preparation of the request raises, be it the first
    [prepareSendTransaction], the fetch of the gas price or the adjusted
    [prepareSendTransaction], nothing is sent: the events of
    [transferEther] hold no submission; and when the status callback
    returns from the error status it is given in the [catch] block,
    [transferEther] returns the failure with the error. *)
Theorem transferEther_failed_preparation_sends_nothing
    (s s1 s2 : State TTransferEther) wagmiProvider e :
  let p := props s in
  validAddress (te_receiverAddress p) = true ->
  fst (callStatus (te_statusHandler p) (with_pending defaultTxStatus true) s) = inr tt ->
  call (ToWagmiProvider (te_connector p))
    (snd (callStatus (te_statusHandler p) (with_pending defaultTxStatus true) s))
  = (inr wagmiProvider, s1) ->
  validAddress (wp_address wagmiProvider) = true ->
  prepareConfig p wagmiProvider s1 = (inl e, s2) ->
  submissions (emitted transferEther s) = 0%nat
  /\ (fst (callStatus (te_statusHandler p) (with_error defaultTxStatus true)
            (snd (emit (EvConsoleError e) s2))) = inr tt ->
      fst (transferEther s) = inr (mkResponse false None (Some e))).
Proof.
  intros p Hr Hpend Hprov Hu Hprep.
  assert (Htry : transferEther_try p wagmiProvider s1 = (inl e, s2)).
  { unfold transferEther_try. now erewrite bind_raises by exact Hprep. }
  unfold emitted.
  rewrite (transferEther_run s s1 wagmiProvider Hr Hpend Hprov Hu). fold p.
  split; [|intros Hcb; exact (proj1 (transferEther_caught p wagmiProvider s1 s2 e Htry Hcb))].
  pose proof (transferEther_caught_log p wagmiProvider s1 s2 e Htry) as Hlog.
  assert (Hquiet : submits_at_most 0 (prepareConfig p wagmiProvider)).
  { unfold prepareConfig, adjustForGas. quiet_part. }
  destruct (Hquiet s1) as (l & Hl & Hcount). rewrite Hprep in Hl. cbn [snd] in Hl.
  destruct (call_log _ _ _ _ Hprov) as [Hlog1 _].
  rewrite callStatus_log in Hlog1.
  rewrite Hlog, Hl, Hlog1, <- !app_assoc, drop_app_length.
  rewrite !submissions_app, !submissions_single.
  destruct (te_statusHandler p); simpl; lia.
Qed.

(** X22: a status callback that raises when it is told of the mined
    transaction turns the outcome into a failure: the raise is caught like
    any other of the [try] block, and when the callback then returns from
    the error status, [transferEther] returns [isSuccessful] false with the
    error of the callback and without the receipt, although the transaction
    was mined. *)
Theorem transferEther_callback_raises_after_mined
    (s s1 s2 s3 s4 : State TTransferEther) wagmiProvider config hash receipt e :
  let p := props s in
  let told := callStatus (P:=TTransferEther) (te_statusHandler p)
                (match status receipt with
                 | StatusSuccess => with_success defaultTxStatus true
                 | StatusReverted => with_error defaultTxStatus true
                 end) s4 in
  validAddress (te_receiverAddress p) = true ->
  fst (callStatus (te_statusHandler p) (with_pending defaultTxStatus true) s) = inr tt ->
  call (ToWagmiProvider (te_connector p))
    (snd (callStatus (te_statusHandler p) (with_pending defaultTxStatus true) s))
  = (inr wagmiProvider, s1) ->
  validAddress (wp_address wagmiProvider) = true ->
  prepareConfig p wagmiProvider s1 = (inr config, s2) ->
  call (SendTransaction config) s2 = (inr hash, s3) ->
  call (WaitForTransaction (chainId wagmiProvider) hash) s3 = (inr receipt, s4) ->
  fst told = inl e ->
  fst (callStatus (te_statusHandler p) (with_error defaultTxStatus true)
         (snd (emit (EvConsoleError e) (snd told)))) = inr tt ->
  fst (transferEther s) = inr (mkResponse false None (Some e)).
Proof.
  intros p told Hr Hpend Hprov Hu Hcfg Hsend Hwait Hraise Hcb.
  rewrite (transferEther_run s s1 wagmiProvider Hr Hpend Hprov Hu). fold p.
  assert (Htry : transferEther_try p wagmiProvider s1 = (inl e, snd told)).
  { unfold transferEther_try, sendAndConfirm.
    erewrite bind_returns by exact Hcfg.
    erewrite bind_returns by exact Hsend.
    erewrite bind_returns by exact Hwait.
    unfold bind. subst told.
    destruct (status receipt);
      destruct (callStatus _ _ s4) as [[e'|u] s5]; cbn [fst snd] in *; congruence. }
  exact (proj1 (transferEther_caught p wagmiProvider s1 (snd told) e Htry Hcb)).
Qed.

(** X23: a status callback that raises in the [catch] block is not
    caught: when the [try] block raised and the callback raises on the error
    status, [transferEther] raises the error of the callback instead of
    returning a failure, after it logged the first error to the console and
    scheduled the reset. *)
Theorem transferEther_callback_raises_in_catch
    (s s1 s2 : State TTransferEther) wagmiProvider e e' :
  let p := props s in
  validAddress (te_receiverAddress p) = true ->
  fst (callStatus (te_statusHandler p) (with_pending defaultTxStatus true) s) = inr tt ->
  call (ToWagmiProvider (te_connector p))
    (snd (callStatus (te_statusHandler p) (with_pending defaultTxStatus true) s))
  = (inr wagmiProvider, s1) ->
  validAddress (wp_address wagmiProvider) = true ->
  transferEther_try p wagmiProvider s1 = (inl e, s2) ->
  fst (callStatus (te_statusHandler p) (with_error defaultTxStatus true)
         (snd (emit (EvConsoleError e) s2))) = inl e' ->
  fst (transferEther s) = inl e'
  /\ log (snd (transferEther s))
     = log s2 ++ [EvConsoleError e]
         ++ match te_statusHandler p with
            | Some cb => [EvStatus cb (with_error defaultTxStatus true)]
            | None => []
            end
         ++ [EvSetTimeout 3000 (te_statusHandler p) defaultTxStatus].
Proof.
  intros p Hr Hpend Hprov Hu Htry Hraise.
  rewrite (transferEther_run s s1 wagmiProvider Hr Hpend Hprov Hu). fold p.
  split; [|exact (transferEther_caught_log p wagmiProvider s1 s2 e Htry)].
  unfold try_finally, try_catch. rewrite Htry.
  unfold transferEther_catch, transferEther_finally, bind.
  change (emit (EvConsoleError e) s2)
    with (inr (A:=exn) tt, snd (emit (P:=TTransferEther) (EvConsoleError e) s2)).
  cbn iota beta. rewrite (callStatus_raises _ _ _ _ Hraise). reflexivity.
Qed.

End Queries.

(** ** The further properties on concrete requests *)

(** Witness of X2: the fallback of an approval of 0 for [0xSpender]. *)
Lemma approveERC20_fallback_retries_witness :
  approveERC20_onTrySomethingElse (E:=Demo.env)
    (snd (approveERC20 (Demo.start Demo.env Cases.approve_with_fallback 0%nat)))
  = call (HandleTx
            (mkWrite (Some "injected") (Some "0xContract") None (Some AlternateApprove))
            (mkCall (Some "0xContract") ALTERNATE_ERC20_APPROVE_ABI "approve"
               [ArgAddress (Some "0xSpender"); ArgBigint 0] None))
      (snd (approveERC20 (Demo.start Demo.env Cases.approve_with_fallback 0%nat))).
Proof.
  apply (approveERC20_fallback_retries (E:=Demo.env)
           (Demo.start Demo.env Cases.approve_with_fallback 0%nat)); reflexivity.
Defined.

(** Witness of X6: the transfer of token 7 is sent from [0xUser]. *)
Lemma transferERC721_sends_from_resolved_account_witness :
  Demo.valid0 (Some "0xReceiver") = true
  /\ Demo.valid0 (Some "0xContract") = true
  /\ exists wagmiProvider,
      fst (call (E:=Demo.env) (ToWagmiProvider (Some "injected"))
             (Demo.start Demo.env Demo.transfer721 0%nat)) = inr wagmiProvider
      /\ Demo.valid0 (wp_address wagmiProvider) = true
      /\ mkCall (Some "0xContract") erc721ABI "safeTransferFrom"
           [ArgAddress (Some "0xUser"); ArgAddress (Some "0xReceiver"); ArgBigint 7] None
         = mkCall (Some "0xContract") erc721ABI "safeTransferFrom"
             [ArgAddress (wp_address wagmiProvider); ArgAddress (Some "0xReceiver");
              ArgBigint 7] None.
Proof.
  apply (transferERC721_sends_from_resolved_account (E:=Demo.env)
           (Demo.start Demo.env Demo.transfer721 0%nat)
           (EvCall (HandleTx Demo.write0
                      (mkCall (Some "0xContract") erc721ABI "safeTransferFrom"
                         [ArgAddress (Some "0xUser"); ArgAddress (Some "0xReceiver");
                          ArgBigint 7] None)))).
  - right. left. reflexivity.
  - reflexivity.
Defined.

(** Witness of X14: the batch sent for the ids 11 to 14 with the balances
    0, 3, 0, 7. *)
Lemma transferERC1155_batch_well_formed_witness :
  exists from ids amounts,
    "safeBatchTransferFrom" = "safeBatchTransferFrom"
    /\ [ArgAddress (Some "0xUser"); ArgAddress (Some "0xReceiver");
        ArgBigints [12; 14]; ArgBigints [3; 7]; ArgBytes "0x"]
       = [ArgAddress from; ArgAddress (Some "0xReceiver");
          ArgBigints ids; ArgBigints amounts; ArgBytes "0x"]
    /\ ids <> []
    /\ length ids = length amounts
    /\ Forall (fun amount => amount > 0) amounts
    /\ sublist ids Demo.tokens4.
Proof.
  apply (transferERC1155_batch_well_formed (E:=Demo.env)
           (Demo.start Demo.env Demo.transfer1155 0%nat)
           (EvCall (HandleTx Demo.write0
                      (mkCall (Some "0xContract") ERC1155_ABI "safeBatchTransferFrom"
                         [ArgAddress (Some "0xUser"); ArgAddress (Some "0xReceiver");
                          ArgBigints [12; 14]; ArgBigints [3; 7]; ArgBytes "0x"] None)))
           (mkCall (Some "0xContract") ERC1155_ABI "safeBatchTransferFrom"
              [ArgAddress (Some "0xUser"); ArgAddress (Some "0xReceiver");
               ArgBigints [12; 14]; ArgBigints [3; 7]; ArgBytes "0x"] None)).
  - right. right. left. reflexivity.
  - reflexivity.
Defined.

(** Witness of X13: the ids 12 and 14 are listed with 3 and 5; the transfer
    of the listed ids carries them all. *)
Lemma list_then_transfer_witness :
  transferERC1155 (E:=Cases.env_by_id) (Demo.start Cases.env_by_id Cases.transfer_listed 0%nat)
  = call (HandleTx Demo.write0
            (mkCall (Some "0xContract") ERC1155_ABI "safeBatchTransferFrom"
               [ArgAddress (Some "0xUser"); ArgAddress (Some "0xReceiver");
                ArgBigints [12; 14]; ArgBigints [3; 5]; ArgBytes "0x"] None))
      (mkState (E:=Cases.env_by_id) 2%nat Cases.transfer_listed
         [EvCall (ToWagmiProvider (Some "injected"));
          EvCall (ReadContract RetBigints Demo.provider0
                    (balanceOfBatch_call (Some "0xContract") Demo.provider0 [12; 14]))]).
Proof.
  eapply (list_then_transfer (E:=Cases.env_by_id)
            (Demo.start Cases.env_by_id Demo.list1155 0%nat) _ [12; 14] [3; 5]
            (Demo.start Cases.env_by_id Cases.transfer_listed 0%nat)
            (mkState (E:=Cases.env_by_id) 1%nat Cases.transfer_listed
               [EvCall (ToWagmiProvider (Some "injected"))])
            _ Demo.provider0); try reflexivity.
  discriminate.
Defined.

(** Witness of X16: 1 and 2 wei to two receivers attach 3 wei. *)
Lemma disperseETH_value_bounds_witness :
  exists d v,
    disperseETH (E:=Demo.env) (Demo.start Demo.env Demo.disperse2 0%nat)
    = call (HandleTx Demo.write0 d) (Demo.start Demo.env Demo.disperse2 0%nat)
    /\ value d = Some v
    /\ (forall amount, In amount [1; 2] -> 0 < amount <= v)
    /\ Z.of_nat (length ["0xA11ce"; "0xB0b"]) <= v.
Proof.
  apply (disperseETH_value_bounds (E:=Demo.env) (Demo.start Demo.env Demo.disperse2 0%nat)).
  reflexivity.
Defined.

(** Witness of X17: [bob] is reported, not the amount of 0 nor the
    difference in length. *)
Lemma disperseETH_first_failure_witness :
  disperseETH (E:=Demo.env) (Demo.start Demo.env Cases.disperse_mixed 0%nat)
  = (inl (InvalidAddress (Some "bob")), Demo.start Demo.env Cases.disperse_mixed 0%nat).
Proof.
  apply (proj1 (disperseETH_first_failure (E:=Demo.env)
                  (Demo.start Demo.env Cases.disperse_mixed 0%nat) eq_refl)).
  reflexivity.
Defined.

(** Witness of X18: 1 and 2 tokens to two receivers. *)
Lemma disperseERC20_passes_batch_witness :
  disperseERC20 (E:=Demo.env) (Demo.start Demo.env Demo.disperse20 0%nat)
  = call (HandleTx Demo.write0
            (mkCall (Some "0xContract") DISPERSE_ABI "disperseToken"
               [ArgAddress (Some "0xToken");
                ArgAddresses [Some "0xA11ce"; Some "0xB0b"]; ArgBigints [1; 2]] None))
      (Demo.start Demo.env Demo.disperse20 0%nat).
Proof.
  apply (disperseERC20_passes_batch (E:=Demo.env)
           (Demo.start Demo.env Demo.disperse20 0%nat)).
  reflexivity.
Defined.

(** Witness of X19: an allowance of 5 approved for 3 is approved for 2. *)
Lemma isApprovedERC20_monotone_witness :
  fst (isApprovedERC20 (E:=Demo.env) (Demo.start Demo.env Cases.isApproved2 0%nat))
  = inr true.
Proof.
  eapply (isApprovedERC20_monotone (E:=Demo.env)
            (Demo.start Demo.env Demo.isApproved3 0%nat) _ _
            (Demo.start Demo.env Cases.isApproved2 0%nat) _ _
            Demo.provider0 Demo.provider0 5 2); try reflexivity.
  left. exists 3. split; [reflexivity|lia].
Defined.

(** Witness of X9: 1000000 wei are prepared and sent as they are. *)
Lemma transferEther_plain_value_witness :
  transferEther (E:=Demo.env) (Demo.start Demo.env Cases.ether_plain 0%nat)
  = try_finally
      (try_catch
         (let* config :=
            call (PrepareSendTransaction Demo.provider0 (Some "0xReceiver") 1000000) in
          sendAndConfirm Cases.ether_plain Demo.provider0 config)
         (transferEther_catch Cases.ether_plain))
      (transferEther_finally Cases.ether_plain)
      (mkState (E:=Demo.env) 1%nat Cases.ether_plain
         [EvStatus "set_txStatus" (with_pending Demo.status0 true);
          EvCall (ToWagmiProvider (Some "injected"))]).
Proof.
  apply (transferEther_plain_value (E:=Demo.env)
           (Demo.start Demo.env Cases.ether_plain 0%nat) _ Demo.provider0);
    try reflexivity.
  discriminate.
Defined.

(** Witness of X11: the transaction is mined and reverted. *)
Lemma transferEther_reverted_witness :
  fst (transferEther (E:=Cases.env_reverted)
         (Demo.start Cases.env_reverted Demo.ether 0%nat))
  = inr (mkResponse false (Some (mkReceipt StatusReverted "0xhash")) None)
  /\ log (snd (transferEther (E:=Cases.env_reverted)
                 (Demo.start Cases.env_reverted Demo.ether 0%nat)))
     = log (snd (call (E:=Cases.env_reverted) (WaitForTransaction 1 "0xhash")
                   (snd (call (SendTransaction Demo.config1)
                           (snd (call (PrepareSendTransaction Demo.provider0
                                         (Some "0xReceiver") 769000)
                                   (Demo.state_at Cases.env_reverted 0%nat 3)))))))
         ++ [EvStatus "set_txStatus" (with_error Demo.status0 true)]
         ++ [EvSetTimeout 3000 (Some "set_txStatus") Demo.status0].
Proof.
  apply (transferEther_reverted (E:=Cases.env_reverted)
           (Demo.start Cases.env_reverted Demo.ether 0%nat)
           (Demo.state_at Cases.env_reverted 0%nat 0)
           (snd (call (PrepareSendTransaction Demo.provider0 (Some "0xReceiver") 769000)
                   (Demo.state_at Cases.env_reverted 0%nat 3)))
           (snd (call (SendTransaction Demo.config1)
                   (snd (call (PrepareSendTransaction Demo.provider0
                                 (Some "0xReceiver") 769000)
                           (Demo.state_at Cases.env_reverted 0%nat 3)))))
           _ Demo.provider0 Demo.config1 "0xhash" (mkReceipt StatusReverted "0xhash"));
    reflexivity.
Defined.

(** Witness of X15: the query of the listing of the ids 11 to 14. *)
Lemma balanceOfBatch_query_well_formed_witness :
  Demo.valid0 (wp_address Demo.provider0) = true
  /\ functionName (balanceOfBatch_call (Some "0xContract") Demo.provider0 Demo.tokens4)
     = "balanceOfBatch"
  /\ exists accounts,
      args (balanceOfBatch_call (Some "0xContract") Demo.provider0 Demo.tokens4)
      = [ArgAddresses accounts; ArgBigints Demo.tokens4]
      /\ length accounts = length Demo.tokens4
      /\ Forall (eq (Some "0xUser")) accounts.
Proof.
  apply (proj1 (balanceOfBatch_query_well_formed (E:=Demo.env))
           (Demo.start Demo.env Demo.list1155 0%nat)
           (EvCall (ReadContract RetBigints Demo.provider0
                      (balanceOfBatch_call (Some "0xContract") Demo.provider0
                         Demo.tokens4)))).
  - right. left. reflexivity.
  - reflexivity.
Defined.

(** Witness of X20: 1000 wei with the adjustment on: the request asked for
    the second time is for 1000 - (21000 * 10 + 21000) wei. *)
Lemma transferEther_adjustment_unguarded_witness :
  exists v,
    v <= 1000 - 21000
    /\ (1000 <= 21000 -> v <= 0)
    /\ transferEther (E:=Demo.env) (Demo.start Demo.env Cases.ether_dust 0%nat)
       = try_finally
           (try_catch
              (let* adjusted :=
                 call (PrepareSendTransaction Demo.provider0 (Some "0xReceiver") v) in
               sendAndConfirm Cases.ether_dust Demo.provider0 adjusted)
              (transferEther_catch Cases.ether_dust))
           (transferEther_finally Cases.ether_dust)
           (mkState (E:=Demo.env) 4%nat Cases.ether_dust
              [EvStatus "set_txStatus" (with_pending Demo.status0 true);
               EvCall (ToWagmiProvider (Some "injected"));
               EvCall (PrepareSendTransaction Demo.provider0 (Some "0xReceiver") 1000);
               EvCall (GetPublicClient 1);
               EvCall (GetGasPrice 1)])
    /\ forall adjusted s4,
        call (PrepareSendTransaction Demo.provider0 (Some "0xReceiver") v)
          (mkState (E:=Demo.env) 4%nat Cases.ether_dust
             [EvStatus "set_txStatus" (with_pending Demo.status0 true);
              EvCall (ToWagmiProvider (Some "injected"));
              EvCall (PrepareSendTransaction Demo.provider0 (Some "0xReceiver") 1000);
              EvCall (GetPublicClient 1);
              EvCall (GetGasPrice 1)])
        = (inr adjusted, s4) ->
        exists l,
          log (snd (transferEther (E:=Demo.env)
                      (Demo.start Demo.env Cases.ether_dust 0%nat)))
          = log s4 ++ EvCall (SendTransaction adjusted) :: l.
Proof.
  eapply (transferEther_adjustment_unguarded (E:=Demo.env)
            (Demo.start Demo.env Cases.ether_dust 0%nat) _ _ _
            Demo.provider0 (mkConfig (Some "0xReceiver") 1000 (Some 21000) None) 10);
    try reflexivity; try (simpl; lia).
  right. split; [reflexivity|]. eexists _, _. split; reflexivity.
Defined.

(** Witness of X21: the request cannot be prepared. *)
Lemma transferEther_failed_preparation_sends_nothing_witness :
  submissions (emitted (E:=Cases.env_unfunded) transferEther
                 (Demo.start Cases.env_unfunded Cases.ether_plain 0%nat)) = 0%nat
  /\ fst (transferEther (E:=Cases.env_unfunded)
            (Demo.start Cases.env_unfunded Cases.ether_plain 0%nat))
     = inr (mkResponse false None (Some (BaseError "InsufficientFundsError"))).
Proof.
  assert (H := transferEther_failed_preparation_sends_nothing (E:=Cases.env_unfunded)
                 (Demo.start Cases.env_unfunded Cases.ether_plain 0%nat)
                 (mkState (E:=Cases.env_unfunded) 1%nat Cases.ether_plain
                    [EvStatus "set_txStatus" (with_pending Demo.status0 true);
                     EvCall (ToWagmiProvider (Some "injected"))])
                 (mkState (E:=Cases.env_unfunded) 2%nat Cases.ether_plain
                    [EvStatus "set_txStatus" (with_pending Demo.status0 true);
                     EvCall (ToWagmiProvider (Some "injected"));
                     EvCall (PrepareSendTransaction Demo.provider0 (Some "0xReceiver")
                               1000000)])
                 Demo.provider0 (BaseError "InsufficientFundsError")
                 eq_refl eq_refl eq_refl eq_refl eq_refl).
  split; [exact (proj1 H)|exact (proj2 H eq_refl)].
Defined.

(** Witness of X10: a transfer that goes through schedules the reset
    last. *)
Lemma transferEther_exits_witness :
  exists l,
    emitted (E:=Demo.env) transferEther (Demo.start Demo.env Cases.ether_plain 0%nat)
    = l ++ [EvSetTimeout 3000 (Some "set_txStatus") Demo.status0]
    /\ Forall (fun ev => is_timer ev = false) l.
Proof.
  apply (transferEther_exits (E:=Demo.env) (Demo.start Demo.env Cases.ether_plain 0%nat)).
  intros cb st w _. reflexivity.
Defined.

(** Witness of X22: the callback raises on the success status. *)
Lemma transferEther_callback_raises_after_mined_witness :
  fst (transferEther (E:=Cases.env_raises_on_success)
         (Demo.start Cases.env_raises_on_success Cases.ether_plain 0%nat))
  = inr (mkResponse false None (Some (BaseError "TypeError"))).
Proof.
  eapply (transferEther_callback_raises_after_mined (E:=Cases.env_raises_on_success)
            (Demo.start Cases.env_raises_on_success Cases.ether_plain 0%nat)
            _ _ _ _ Demo.provider0 _ _ _ (BaseError "TypeError")); reflexivity.
Defined.

(** Witness of X23: the submission is rejected and the callback raises on
    the error status. *)
Lemma transferEther_callback_raises_in_catch_witness :
  fst (transferEther (E:=Cases.env_raises_on_error)
         (Demo.start Cases.env_raises_on_error Cases.ether_plain 0%nat))
  = inl (BaseError "TypeError").
Proof.
  eapply (proj1 (transferEther_callback_raises_in_catch (E:=Cases.env_raises_on_error)
                   (Demo.start Cases.env_raises_on_error Cases.ether_plain 0%nat)
                   _ _ Demo.provider0 (BaseError "UserRejectedRequestError")
                   (BaseError "TypeError") eq_refl eq_refl eq_refl eq_refl eq_refl eq_refl)).
Defined.
